(** * Azure Scheduler Job Collection resource and the MySQL
      CheckNameAvailability client: a shallow embedding and its properties.

    The first part embeds the Terraform resource
    [resourceArmSchedulerJobCollection] (schema map <-> SDK struct and the
    create/update, read and delete operations); the second part embeds the
    generated [mysql.CheckNameAvailabilityClient].

    Conventions of the embedding:
    - a Go [interface{}] is a [value], tagged with its dynamic type;
    - a Go pointer [*T] is an [option T], [None] being [nil];
    - a Go slice is a [list], the nil slice being the empty list;
    - a Go [map[string]T] is a [gmap string T];
    - Go's [int] is taken to be 64 bits wide (the usual build target of the
      provider), [int32] is 32 bits wide, both kept as [Z];
    - a run-time panic (failed type assertion, nil dereference) is the
      [Panic] outcome of [res];
    - calls on the Azure client are the nodes of a [prog] tree, answered by
      a handler when the tree is run. *)

From stdpp Require Import gmap strings list fin_maps.
From Stdlib Require Import ZArith Ascii String.

Set Warnings "-register-all".
Local Open Scope Z_scope.
Local Open Scope string_scope.

(** ** Go values *)

Inductive value :=
| VNil                                  (* the nil interface *)
| VInt (n : Z)                          (* int *)
| VInt32 (n : Z)                        (* int32 *)
| VString (s : string)                  (* string, and named string types *)
| VStringPtr (p : option string)        (* *string *)
| VList (l : list value)                (* []interface{} *)
| VMap (m : gmap string value).         (* map[string]interface{} *)

(** Outcome of a computation that may panic. *)
Inductive res (A : Type) :=
| Val (a : A)
| Panic.
Arguments Val {A} a.
Arguments Panic {A}.

Definition res_bind {A B} (r : res A) (f : A -> res B) : res B :=
  match r with
  | Val a => f a
  | Panic => Panic
  end.

Notation "'do!' x <- r 'in' k" := (res_bind r (fun x => k))
  (at level 10, x name, r at level 100, k at level 200, only parsing).

(** [v.(string)] and [v.(map[string]interface{})] in their panicking form. *)
Definition assertString (v : value) : res string :=
  match v with
  | VString s => Val s
  | _ => Panic
  end.

Definition assertMap (v : value) : res (gmap string value) :=
  match v with
  | VMap m => Val m
  | _ => Panic
  end.

(** [int32(v)] for [v] an [int]: the low 32 bits, read as two's complement. *)
Definition int32_min : Z := - 2 ^ 31.
Definition int32_max : Z := 2 ^ 31 - 1.

Definition to_int32 (v : Z) : Z := (v + 2 ^ 31) mod 2 ^ 32 - 2 ^ 31.

Definition in_int32 (v : Z) : Prop := int32_min <= v <= int32_max.

(** Two field values are the same when they carry the same number or the
    same text. *)
Definition same_value (u v : value) : Prop :=
  match u, v with
  | (VInt a | VInt32 a), (VInt b | VInt32 b) => a = b
  | VString s, VString t => s = t
  | _, _ => False
  end.

(** ** Errors and [fmt.Errorf] *)

(** A Go [error], known by the text its [Error()] method returns. *)
Inductive error := errors_New (text : string).

Definition Error (e : error) : string :=
  match e with errors_New t => t end.

(** Operands handed to a format string. *)
Inductive operand :=
| OpString (s : string)
| OpStringPtr (p : option string)
| OpError (e : error).

(** ** HTTP responses *)

(** [http.Response], as far as this code looks at it. [BodyClosed] records
    that [Body.Close()] was called. *)
Record http_Response := {
  StatusCode : Z;
  Body : string;
  BodyClosed : bool
}.

Definition http_StatusOK : Z := 200.
Definition http_StatusNotFound : Z := 404.

(** [autorest.Response] embeds a [*http.Response]. *)
Record autorest_Response := { Response : option http_Response }.

(** ** The scheduler SDK structs *)

Record JobMaxRecurrence := {
  Frequency : string;              (* RecurrenceFrequency *)
  Interval : option Z              (* *int32 *)
}.

Record JobCollectionQuota := {
  MaxJobCount : option Z;          (* *int32 *)
  MaxRecurrence : option JobMaxRecurrence
}.

Record Sku := { Sku_Name : string (* SkuDefinition *) }.

Record JobCollectionProperties := {
  Properties_Sku : option Sku;
  State : string;                  (* JobCollectionState *)
  Quota : option JobCollectionQuota
}.

Record JobCollectionDefinition := {
  Collection_Response : autorest_Response;
  ID : option string;
  Name : option string;
  Location : option string;
  Tags : gmap string (option string);
  Properties : option JobCollectionProperties
}.

(** ** [schema.ResourceData] *)

Record ResourceData := {
  rd_id : string;
  rd_fields : gmap string value
}.

Definition d_Id (d : ResourceData) : string := rd_id d.

Definition d_SetId (v : string) (d : ResourceData) : ResourceData :=
  {| rd_id := v; rd_fields := rd_fields d |}.

(** [d.Get(key)]: the stored value; a key that was never set reads as a
    value on which every type assertion of this file fails or, for the
    quota list, as no list at all. *)
Definition d_Get (d : ResourceData) (key : string) : value :=
  default VNil (rd_fields d !! key).

(** ** Quota: expand and flatten *)

Definition set_MaxJobCount (v : option Z) (q : JobCollectionQuota) : JobCollectionQuota :=
  {| MaxJobCount := v; MaxRecurrence := MaxRecurrence q |}.

(** Assignments through the [quota.MaxRecurrence] pointer. *)
Definition set_Frequency (f : string) (q : JobCollectionQuota) : JobCollectionQuota :=
  {| MaxJobCount := MaxJobCount q;
     MaxRecurrence :=
       (fun r => {| Frequency := f; Interval := Interval r |}) <$> MaxRecurrence q |}.

Definition set_Interval (v : option Z) (q : JobCollectionQuota) : JobCollectionQuota :=
  {| MaxJobCount := MaxJobCount q;
     MaxRecurrence :=
       (fun r => {| Frequency := Frequency r; Interval := v |}) <$> MaxRecurrence q |}.

Definition expandAzureArmSchedulerJobCollectionQuota (d : ResourceData)
  : res (option JobCollectionQuota) :=
  match d_Get d "quota" with
  | VList (qb0 :: _) =>
      let quota :=
        {| MaxJobCount := None;
           MaxRecurrence := Some {| Frequency := ""; Interval := None |} |} in
      do! quotaBlock <- assertMap qb0 in
      let quota :=
        match quotaBlock !! "max_job_count" with
        | Some (VInt v) => set_MaxJobCount (Some (to_int32 v)) quota
        | _ => quota
        end in
      let quota :=
        match quotaBlock !! "max_recurrence_frequency" with
        | Some (VString v) => set_Frequency v quota
        | _ => quota
        end in
      let quota :=
        match quotaBlock !! "max_retry_interval" with
        | Some (VInt v) => set_Interval (Some (to_int32 v)) quota
        | _ => quota
        end in
      Val (Some quota)
  | _ => Val None
  end.

Definition flattenAzureArmSchedulerJobCollectionQuota (quota : option JobCollectionQuota)
  : list value :=
  match quota with
  | None => []
  | Some quota =>
      let quotaBlock : gmap string value := ∅ in
      let quotaBlock :=
        match MaxJobCount quota with
        | Some v => <["max_job_count" := VInt32 v]> quotaBlock
        | None => quotaBlock
        end in
      let quotaBlock :=
        match MaxRecurrence quota with
        | Some recurrence =>
            let quotaBlock :=
              match Interval recurrence with
              | Some v => <["max_retry_interval" := VInt32 v]> quotaBlock
              | None => quotaBlock
              end in
            <["max_recurrence_frequency" := VString (Frequency recurrence)]> quotaBlock
        | None => quotaBlock
        end in
      [VMap quotaBlock]
  end.

(** A quota block that carries the three known fields with their schema
    types. *)
Record known_fields (x : gmap string value) (count : Z) (freq : string) (retry : Z) : Prop := {
  kf_count : x !! "max_job_count" = Some (VInt count);
  kf_freq : x !! "max_recurrence_frequency" = Some (VString freq);
  kf_retry : x !! "max_retry_interval" = Some (VInt retry)
}.

(** The flattened block [y] carries, for each known field, the same value
    as [x]. *)
Definition carries_same_fields (x y : gmap string value) : Prop :=
  forall key, key ∈ ["max_job_count"; "max_recurrence_frequency"; "max_retry_interval"] ->
    exists u v, x !! key = Some u /\ y !! key = Some v /\ same_value u v.

(** Expanding the configuration [d] and flattening the result gives one
    block that agrees with [x] on the known fields. *)
Definition quota_roundtrips (d : ResourceData) (x : gmap string value) : Prop :=
  exists quota y,
    expandAzureArmSchedulerJobCollectionQuota d = Val quota /\
    flattenAzureArmSchedulerJobCollectionQuota quota = [VMap y] /\
    carries_same_fields x y.

(** ** What the resource takes from the rest of the provider and from Go

    These functions are called by the source but defined elsewhere
    ([resourceid.go], [tags.go], [locations.go], [utils], [helpers/response],
    Go's [strconv] and [fmt], Terraform's field writer); the embedding is
    parametric in them. *)

Class Externals := {
  (** [strconv.Quote], which renders a string under [%q]. *)
  strconv_Quote : string -> string;
  (** The text [fmt] prints for a pointer operand. *)
  fmt_Pointer : option string -> string;
  (** The error, if any, with which Terraform refuses [d.Set(key, v)]. *)
  schema_SetError : string -> value -> option error;
  azureRMNormalizeLocation : string -> string;
  expandTags : gmap string value -> gmap string (option string);
  utils_ResponseWasNotFound : autorest_Response -> bool;
  response_WasNotFound : option http_Response -> bool
}.

(** [azure.ResourceID] as returned by [parseAzureResourceID]. *)
Record ResourceID := {
  SubscriptionID : string;
  ResourceGroup : string;
  Provider : string;
  Path : gmap string string
}.

(** [m[key]] on a [map[string]string]: the empty string when absent. *)
Definition map_index (m : gmap string string) (key : string) : string :=
  default "" (m !! key).

Section Formatting.
Context `{Externals}.

Definition fmt_q (o : operand) : string :=
  match o with
  | OpString s => strconv_Quote s
  | OpError e => strconv_Quote (Error e)
  | OpStringPtr p => "%!q(*string=" ++ fmt_Pointer p ++ ")"
  end.

Definition fmt_plus_v (o : operand) : string :=
  match o with
  | OpString s => s
  | OpError e => Error e
  | OpStringPtr p => fmt_Pointer p
  end.

(** [fmt.Sprintf] for the verbs this code uses, [%q] and [%+v]; each verb
    consumes one operand. *)
Fixpoint fmt_Sprintf (format : string) (a : list operand) : string :=
  match format with
  | EmptyString => ""
  | String "%" (String "q" rest) =>
      match a with
      | o :: a' => fmt_q o ++ fmt_Sprintf rest a'
      | [] => "%!q(MISSING)" ++ fmt_Sprintf rest []
      end
  | String "%" (String "+" (String "v" rest)) =>
      match a with
      | o :: a' => fmt_plus_v o ++ fmt_Sprintf rest a'
      | [] => "%!v(MISSING)" ++ fmt_Sprintf rest []
      end
  | String c rest => String c (fmt_Sprintf rest a)
  end.

Definition fmt_Errorf (format : string) (a : list operand) : error :=
  errors_New (fmt_Sprintf format a).
End Formatting.

(** ** Code that mutates the [ResourceData] it is handed *)

Definition St (A : Type) : Type := ResourceData -> ResourceData * res A.

Definition st_ret {A} (a : A) : St A := fun d => (d, Val a).

Definition st_bind {A B} (m : St A) (f : A -> St B) : St B :=
  fun d =>
    match m d with
    | (d', Val a) => f a d'
    | (d', Panic) => (d', Panic)
    end.

Notation "'do' x <- m 'in' k" := (st_bind m (fun x => k))
  (at level 10, x name, m at level 100, k at level 200, only parsing).

(** [p == nil] *)
Definition is_nil {A} (p : option A) : bool :=
  match p with
  | Some _ => false
  | None => true
  end.

(** [*p]: panics on nil. *)
Definition deref {A} (p : option A) : St A :=
  fun d =>
    match p with
    | Some a => (d, Val a)
    | None => (d, Panic)
    end.

(** ** Computations that talk to Azure

    A computation either returns or places a call and continues with the
    answer. Which calls exist, and what each hands back, is a [signature]. *)

Record signature := {
  call : Type;
  answer : call -> Type
}.

Inductive prog (S : signature) (A : Type) :=
| Ret (a : A)
| Vis (c : call S) (k : answer S c -> prog S A).
Arguments Ret {S A} a.
Arguments Vis {S A} c k.

(** Azure as seen from the caller: a state and, for every call, an answer
    and the next state. *)
Definition handler (S : signature) (W : Type) : Type :=
  forall c : call S, W -> answer S c * W.

(** Outcome of a run: the result, the final state of Azure and the calls
    made, in order. *)
Record run_result (S : signature) (A W : Type) := {
  result : A;
  world : W;
  calls : list (call S)
}.
Arguments result {S A W} r.
Arguments world {S A W} r.
Arguments calls {S A W} r.

Fixpoint run {S A W} (h : handler S W) (w : W) (p : prog S A) : run_result S A W :=
  match p with
  | Ret a => {| result := a; world := w; calls := [] |}
  | Vis c k =>
      let '(r, w1) := h c w in
      let rest := run h w1 (k r) in
      {| result := result rest; world := world rest; calls := c :: calls rest |}
  end.

Fixpoint prog_bind {S A B} (p : prog S A) (f : A -> prog S B) : prog S B :=
  match p with
  | Ret a => f a
  | Vis c k => Vis c (fun r => prog_bind (k r) f)
  end.

(** *** The scheduler client

    [scheduler.JobCollectionsClient] is reached through three methods, and
    the future that [Delete] returns through [WaitForCompletion]. Each is one
    request/answer exchange with Azure as far as the resource can tell. *)

(** [azure.Future]: the response of the last exchange of a long-running
    operation. [WaitForCompletion] has a pointer receiver, so it hands back
    the future it updated. *)
Record Future := { Future_Response : option http_Response }.

Inductive client_call :=
| client_CreateOrUpdate (resourceGroup name : string) (collection : JobCollectionDefinition)
| client_Get (resourceGroup name : string)
| client_Delete (resourceGroup name : string)
| future_WaitForCompletion (future : Future).

(** What a call hands back: the result and the [error], [None] being nil. *)
Definition client_answer (c : client_call) : Type :=
  match c with
  | client_CreateOrUpdate _ _ _ | client_Get _ _ => (JobCollectionDefinition * option error)%type
  | client_Delete _ _ | future_WaitForCompletion _ => (Future * option error)%type
  end.

Definition scheduler : signature := {| call := client_call; answer := client_answer |}.

(** What an operation leaves behind: the [ResourceData] it mutated and the
    [error] it returned, or a panic. *)
Definition outcome : Type := (ResourceData * res (option error))%type.

Section Resource.
Context `{Externals}.
(** [flattenAndSetTags(d, &tags)] and [parseAzureResourceID(id)], two more
    helpers of the provider. *)
Context (flattenAndSetTags : gmap string (option string) -> St (option error)).
Context (parseAzureResourceID : string -> error + ResourceID).

(** [d.Set(key, v)]: writes the field unless Terraform refuses it. *)
Definition d_Set (key : string) (v : value) : St (option error) :=
  fun d =>
    match schema_SetError key v with
    | Some err => (d, Val (Some err))
    | None => ({| rd_id := rd_id d; rd_fields := <[key := v]> (rd_fields d) |}, Val None)
    end.

Definition resourceArmSchedulerJobCollectionPopulate
    (resourceGroup : string) (resp : JobCollectionDefinition) : St (option error) :=
  (* standard properties *)
  do _ <- d_Set "name" (VStringPtr (Name resp)) in
  do location <- deref (Location resp) in
  do _ <- d_Set "location" (VString (azureRMNormalizeLocation location)) in
  do _ <- d_Set "resource_group_name" (VString resourceGroup) in
  (* resource specific *)
  do failed <-
    match Properties resp with
    | Some properties =>
        do _ <- match Properties_Sku properties with
             | Some sku => d_Set "sku" (VString (Sku_Name sku))
             | None => st_ret None
             end in
        do _ <- d_Set "state" (VString (State properties)) in
        do err <- d_Set "quota"
                 (VList (flattenAzureArmSchedulerJobCollectionQuota (Quota properties))) in
        match err with
        | Some err =>
            st_ret (Some (fmt_Errorf
              "Error flattening quota for Job Collection %q (Resource Group %q): %+v"
              [OpStringPtr (Name resp); OpString resourceGroup; OpError err]))
        | None => st_ret None
        end
    | None => st_ret None
    end in
  match failed with
  | Some err => st_ret (Some err)
  | None =>
      do err <- flattenAndSetTags (Tags resp) in
      match err with
      | Some err => st_ret (Some (fmt_Errorf "Error flattening `tags`: %+v" [OpError err]))
      | None => st_ret None
      end
  end.

(** The three operations. Their [log.Printf] lines are left out. *)

(** Create/update up to its first call: the fields read from [d] and the
    collection built from them. *)
Definition createUpdate_collection (d : ResourceData)
  : res (string * string * JobCollectionDefinition) :=
  do! name <- assertString (d_Get d "name") in
  do! location <- assertString (d_Get d "location") in
  do! resourceGroup <- assertString (d_Get d "resource_group_name") in
  do! tags <- assertMap (d_Get d "tags") in
  do! sku <- assertString (d_Get d "sku") in
  let properties :=
    {| Properties_Sku := Some {| Sku_Name := sku |}; State := ""; Quota := None |} in
  let properties :=
    match d_Get d "state" with
    | VString state =>
        {| Properties_Sku := Properties_Sku properties; State := state;
           Quota := Quota properties |}
    | _ => properties
    end in
  do! quota <- expandAzureArmSchedulerJobCollectionQuota d in
  let properties :=
    {| Properties_Sku := Properties_Sku properties; State := State properties;
       Quota := quota |} in
  Val (name, resourceGroup,
       {| Collection_Response := {| Response := None |};
          ID := None; Name := None;
          Location := Some location;
          Tags := expandTags tags;
          Properties := Some properties |}).

Definition resourceArmSchedulerJobCollectionCreateUpdate (d : ResourceData)
  : prog scheduler outcome :=
  match createUpdate_collection d with
  | Panic => Ret (d, Panic)
  | Val (name, resourceGroup, collection) =>
      (* create job collection *)
      Vis (S := scheduler) (client_CreateOrUpdate resourceGroup name collection) (fun '(collection, err) =>
      match err with
      | Some err =>
          Ret (d, Val (Some (fmt_Errorf
            "Error creating/updating Scheduler Job Collection %q (Resource Group %q): %+v"
            [OpString name; OpString resourceGroup; OpError err])))
      | None =>
          (* ensure collection actually exists and we have the correct ID *)
          Vis (S := scheduler) (client_Get resourceGroup name) (fun '(collection, err) =>
          match err with
          | Some err =>
              Ret (d, Val (Some (fmt_Errorf
                "Error reading Scheduler Job Collection %q after create/update (Resource Group %q): %+v"
                [OpString name; OpString resourceGroup; OpError err])))
          | None =>
              match ID collection with
              | None => Ret (d, Panic)
              | Some id =>
                  Ret (resourceArmSchedulerJobCollectionPopulate resourceGroup collection
                         (d_SetId id d))
              end
          end)
      end)
  end.

Definition resourceArmSchedulerJobCollectionRead (d : ResourceData) : prog scheduler outcome :=
  match parseAzureResourceID (d_Id d) with
  | inl err => Ret (d, Val (Some err))
  | inr id =>
      let name := map_index (Path id) "jobCollections" in
      let resourceGroup := ResourceGroup id in
      Vis (S := scheduler) (client_Get resourceGroup name) (fun '(collection, err) =>
      match err with
      | Some err =>
          if utils_ResponseWasNotFound (Collection_Response collection) then
            Ret (d_SetId "" d, Val None)
          else
            Ret (d, Val (Some (fmt_Errorf
              "Error making Read request on Scheduler Job Collection %q (Resource Group %q): %+v"
              [OpString name; OpString resourceGroup; OpError err])))
      | None =>
          Ret (resourceArmSchedulerJobCollectionPopulate resourceGroup collection d)
      end)
  end.

Definition resourceArmSchedulerJobCollectionDelete (d : ResourceData) : prog scheduler outcome :=
  match parseAzureResourceID (d_Id d) with
  | inl err => Ret (d, Val (Some err))
  | inr id =>
      let name := map_index (Path id) "jobCollections" in
      let resourceGroup := ResourceGroup id in
      Vis (S := scheduler) (client_Delete resourceGroup name) (fun '(future, err) =>
      let wait :=
        Vis (S := scheduler) (future_WaitForCompletion future) (fun '(future, err) =>
        match err with
        | Some err =>
            if negb (response_WasNotFound (Future_Response future)) then
              Ret (d, Val (Some (fmt_Errorf
                "Error waiting for deletion of Scheduler Job Collection %q (Resource Group %q): %+v"
                [OpString name; OpString resourceGroup; OpError err])))
            else Ret (d, Val None)
        | None => Ret (d, Val None)
        end) in
      match err with
      | Some err =>
          if negb (response_WasNotFound (Future_Response future)) then
            Ret (d, Val (Some (fmt_Errorf
              "Error issuing delete request for Scheduler Job Collection %q (Resource Group %q): %+v"
              [OpString name; OpString resourceGroup; OpError err])))
          else wait
      | None => wait
      end)
  end.
End Resource.

(** ** The MySQL CheckNameAvailability client

    [checknameavailability.go] is written against go-autorest and the
    package's [models.go]. The definitions marked as modelled below stand for
    those two and follow what the library documents for each function the
    client calls. *)

(** *** Requests *)

(** The request URL: the base it is resolved against, the path as written
    in the URL (escaped form) and the query parameters. *)
Record url_URL := {
  url_Base : string;
  url_Path : string;
  url_Query : gmap string (list string)
}.

Record http_Request := {
  Method : string;
  URL : option url_URL;
  Header : gmap string string;
  Request_Body : option string;
  ContentLength : Z
}.

(** [&http.Request{}] *)
Definition http_Request_zero : http_Request :=
  {| Method := ""; URL := None; Header := ∅; Request_Body := None; ContentLength := 0 |}.

(** Modelled from the spec: [mysql.NameAvailabilityRequest] of [models.go],
    the "required parameters for checking if resource name is available"; its
    fields are pointers, as the [Null] constraint on [Name] shows. *)
Record NameAvailabilityRequest := {
  Request_Name : option string;
  Request_Type : option string
}.

(** [mysql.BaseClient], as far as this file reads it. [ResponseInspector] is
    the hook behind [client.ByInspecting()]: [None] when the caller set none,
    else a check of the response. *)
Record CheckNameAvailabilityClient := {
  BaseURI : string;
  Client_SubscriptionID : string;
  ResponseInspector : option (http_Response -> option error)
}.

(** [strings.HasPrefix]. *)
Fixpoint strings_HasPrefix (s prefix : string) : bool :=
  match prefix, s with
  | EmptyString, _ => true
  | String p prefix', String c s' => if Ascii.eqb p c then strings_HasPrefix s' prefix' else false
  | String _ _, EmptyString => false
  end.

(** [strings.Replace(s, old, new, -1)] for a non-empty [old]: every
    non-overlapping occurrence, left to right. [skip] counts the bytes of a
    match that are still to be dropped. *)
Fixpoint replace_from (skip : nat) (s old new : string) : string :=
  match s with
  | EmptyString => ""
  | String c s' =>
      match skip with
      | S k => replace_from k s' old new
      | O =>
          if strings_HasPrefix s old
          then new ++ replace_from (Nat.pred (String.length old)) s' old new
          else String c (replace_from O s' old new)
      end
  end.

Definition strings_Replace (s old new : string) : string := replace_from O s old new.

(** What the client takes from go-autorest, Go's [encoding/json] and
    [models.go] without this file fixing it. *)
Class SdkExternals := {
  (** The fields of [mysql.NameAvailability] other than the embedded
      [autorest.Response], and their zero value. *)
  NameAvailabilityFields : Type;
  NameAvailabilityFields_zero : NameAvailabilityFields;
  (** [autorest.Encode(location, v)]. *)
  autorest_Encode : string -> string -> string;
  (** [json.Marshal(v)] and [json.Unmarshal(b, &result)]. *)
  json_Marshal : NameAvailabilityRequest -> error + string;
  json_Unmarshal : string -> NameAvailabilityFields -> NameAvailabilityFields * option error;
  (** The [azure.RequestError] built from a response with a wrong status. *)
  azure_RequestError : http_Response -> error;
  (** The error with which [validation] reports a failed constraint. *)
  validation_createError : string -> string -> error;
  validation_NewErrorWithValidationError : error -> string -> string -> error;
  autorest_NewErrorWithError :
    error -> string -> string -> option http_Response -> string -> error
}.

(** [mysql.NameAvailability]. *)
Record NameAvailability `{SdkExternals} := {
  NameAvailability_Response : autorest_Response;
  NameAvailability_Fields : NameAvailabilityFields
}.

Section Autorest.
Context `{SdkExternals}.

(** **** Preparing *)

Definition Preparer : Type := http_Request -> http_Request * option error.
Definition PrepareDecorator : Type := Preparer -> Preparer.

(** Every decorator of the library first runs the preparer it wraps and
    acts only when that reported no error. *)
Definition prepare_then (f : http_Request -> http_Request * option error)
  : PrepareDecorator :=
  fun p r =>
    match p r with
    | (r, None) => f r
    | (r, Some err) => (r, Some err)
    end.

(** Modelled from the spec: [autorest.CreatePreparer] "creates, decorates,
    and returns a Preparer"; the decorators act in the order given. *)
Definition autorest_CreatePreparer (decorators : list PrepareDecorator) : Preparer :=
  fold_left (fun p decorate => decorate p) decorators (fun r => (r, None)).

(** Modelled from the spec: [autorest.AsJSON] "sets the Content-Type
    header". *)
Definition autorest_AsJSON : PrepareDecorator :=
  prepare_then (fun r =>
    ({| Method := Method r; URL := URL r;
        Header := <["Content-Type" := "application/json; charset=utf-8"]> (Header r);
        Request_Body := Request_Body r; ContentLength := ContentLength r |}, None)).

(** Modelled from the spec: [autorest.AsPost] "sets the HTTP method to
    POST". *)
Definition autorest_AsPost : PrepareDecorator :=
  prepare_then (fun r =>
    ({| Method := "POST"; URL := URL r; Header := Header r;
        Request_Body := Request_Body r; ContentLength := ContentLength r |}, None)).

(** Modelled from the spec: [autorest.WithBaseURL] "populates the
    http.Request with a url.URL constructed from the supplied baseUrl". *)
Definition autorest_WithBaseURL (baseURL : string) : PrepareDecorator :=
  prepare_then (fun r =>
    ({| Method := Method r;
        URL := Some {| url_Base := baseURL; url_Path := ""; url_Query := ∅ |};
        Header := Header r;
        Request_Body := Request_Body r; ContentLength := ContentLength r |}, None)).

(** Modelled from the spec: [autorest.WithPathParameters] "replaces
    brace-enclosed keys within the request path with the corresponding
    values from the passed map"; it fails on a request without URL. *)
Definition autorest_WithPathParameters (path : string) (pathParameters : gmap string string)
  : PrepareDecorator :=
  prepare_then (fun r =>
    match URL r with
    | None => (r, Some (errors_New "autorest#WithPathParameters: Invoked with a nil URL"))
    | Some u =>
        let path :=
          foldr (fun '(key, v) path => strings_Replace path ("{" ++ key ++ "}") v)
                path (map_to_list pathParameters) in
        ({| Method := Method r;
            URL := Some {| url_Base := url_Base u; url_Path := url_Path u ++ path;
                           url_Query := url_Query u |};
            Header := Header r;
            Request_Body := Request_Body r; ContentLength := ContentLength r |}, None)
    end).

(** Modelled from the spec: [autorest.WithJSON] "encodes the data passed as
    JSON into the body of the request and sets the Content-Length header". *)
Definition autorest_WithJSON (v : NameAvailabilityRequest) : PrepareDecorator :=
  prepare_then (fun r =>
    match json_Marshal v with
    | inl err => (r, Some err)
    | inr b =>
        ({| Method := Method r; URL := URL r; Header := Header r;
            Request_Body := Some b;
            ContentLength := Z.of_nat (String.length b) |}, None)
    end).

(** Modelled from the spec: [autorest.WithQueryParameters] "encodes and
    applies the query parameters given in the supplied map (i.e.,
    key=value)"; it fails on a request without URL. *)
Definition autorest_WithQueryParameters (queryParameters : gmap string string)
  : PrepareDecorator :=
  prepare_then (fun r =>
    match URL r with
    | None => (r, Some (errors_New "autorest#WithQueryParameters: Invoked with a nil URL"))
    | Some u =>
        let query :=
          foldr (fun '(key, v) q => <[key := (default [] (q !! key) ++ [v])%list]> q)
                (url_Query u) (map_to_list queryParameters) in
        ({| Method := Method r;
            URL := Some {| url_Base := url_Base u; url_Path := url_Path u;
                           url_Query := query |};
            Header := Header r;
            Request_Body := Request_Body r; ContentLength := ContentLength r |}, None)
    end).

Definition APIVersion : string := "2017-04-30-preview".

(** [ExecutePreparer] prepares the Execute request. *)
Definition ExecutePreparer (client : CheckNameAvailabilityClient)
    (nameAvailabilityRequest : NameAvailabilityRequest) : http_Request * option error :=
  let pathParameters : gmap string string :=
    {[ "subscriptionId" := autorest_Encode "path" (Client_SubscriptionID client) ]} in
  let queryParameters : gmap string string :=
    {[ "api-version" := APIVersion ]} in
  let preparer := autorest_CreatePreparer [
    autorest_AsJSON;
    autorest_AsPost;
    autorest_WithBaseURL (BaseURI client);
    autorest_WithPathParameters
      "/subscriptions/{subscriptionId}/providers/Microsoft.DBforMySQL/checkNameAvailability"
      pathParameters;
    autorest_WithJSON nameAvailabilityRequest;
    autorest_WithQueryParameters queryParameters ] in
  preparer http_Request_zero.

(** **** Responding *)

(** What a responder works on: the response behind the [*http.Response]
    and the value behind [&result]. *)
Record respond_state := {
  rs_resp : http_Response;
  rs_result : NameAvailabilityFields
}.

Definition Responder : Type := respond_state -> respond_state * option error.
Definition RespondDecorator : Type := Responder -> Responder.

Definition respond_then (f : respond_state -> respond_state * option error)
  : RespondDecorator :=
  fun r s =>
    match r s with
    | (s, None) => f s
    | (s, Some err) => (s, Some err)
    end.

Definition set_Body (body : string) (closed : bool) (s : respond_state) : respond_state :=
  {| rs_resp := {| StatusCode := StatusCode (rs_resp s); Body := body; BodyClosed := closed |};
     rs_result := rs_result s |}.

(** Modelled from the spec: [autorest.Respond] "creates a Responder from
    the decorators it then applies to the passed http.Response"; the
    decorators act in the order given, and a nil response is answered with
    a nil error. *)
Definition autorest_Respond (resp : option http_Response)
    (decorators : list RespondDecorator) (result0 : NameAvailabilityFields)
  : option http_Response * NameAvailabilityFields * option error :=
  match resp with
  | None => (None, result0, None)
  | Some r =>
      let responder := fold_left (fun p decorate => decorate p) decorators (fun s => (s, None)) in
      let '(s, err) := responder {| rs_resp := r; rs_result := result0 |} in
      (Some (rs_resp s), rs_result s, err)
  end.

(** Modelled from the spec: [client.ByInspecting()] is the client's
    [ResponseInspector] if set, else a decorator that does nothing. *)
Definition ByInspecting (client : CheckNameAvailabilityClient) : RespondDecorator :=
  match ResponseInspector client with
  | None => respond_then (fun s => (s, None))
  | Some inspect => respond_then (fun s => (s, inspect (rs_resp s)))
  end.

(** Modelled from the spec: [azure.WithErrorUnlessStatusCode] "emits an
    azure.RequestError ... if the response Status Code is not among the
    specified codes"; it closes the body it read the error from. *)
Definition azure_WithErrorUnlessStatusCode (codes : list Z) : RespondDecorator :=
  respond_then (fun s =>
    if bool_decide (StatusCode (rs_resp s) ∈ codes) then (s, None)
    else (set_Body (Body (rs_resp s)) true s, Some (azure_RequestError (rs_resp s)))).

(** The UTF-8 byte order mark. *)
Definition utf8_BOM : string :=
  String (ascii_of_nat 239) (String (ascii_of_nat 187) (String (ascii_of_nat 191) "")).

Definition bytes_TrimPrefix (b prefix : string) : string :=
  if strings_HasPrefix b prefix
  then String.substring (String.length prefix) (String.length b - String.length prefix) b
  else b.

(** [len(strings.Trim(s, " ")) > 0] fails exactly on a run of spaces. *)
Fixpoint only_spaces (s : string) : bool :=
  match s with
  | EmptyString => true
  | String c s' => if Ascii.eqb c " " then only_spaces s' else false
  end.

(** Modelled from the spec: [autorest.ByUnmarshallingJSON] "unmarshals the
    http.Response Body into the value pointed to by v"; it reads the whole
    body, drops a byte order mark, and leaves [v] alone when nothing but
    spaces is left. *)
Definition autorest_ByUnmarshallingJSON : RespondDecorator :=
  respond_then (fun s =>
    let b := bytes_TrimPrefix (Body (rs_resp s)) utf8_BOM in
    let s := set_Body "" (BodyClosed (rs_resp s)) s in
    if only_spaces b then (s, None)
    else
      match json_Unmarshal b (rs_result s) with
      | (v, Some errInner) =>
          ({| rs_resp := rs_resp s; rs_result := v |},
           Some (errors_New ("Error occurred unmarshalling JSON - Error = '" ++
                             Error errInner ++ "' JSON = '" ++ b ++ "'")))
      | (v, None) => ({| rs_resp := rs_resp s; rs_result := v |}, None)
      end).

(** Modelled from the spec: [autorest.ByClosing] "always closes the
    response body", whatever the responder it wraps reported. *)
Definition autorest_ByClosing : RespondDecorator :=
  fun r s =>
    let '(s, err) := r s in
    (set_Body (Body (rs_resp s)) true s, err).

(** [ExecuteResponder] handles the response to the Execute request. *)
Definition ExecuteResponder (client : CheckNameAvailabilityClient)
    (resp : option http_Response) : NameAvailability * option error :=
  let '(resp, result, err) :=
    autorest_Respond resp [
      ByInspecting client;
      azure_WithErrorUnlessStatusCode [http_StatusOK];
      autorest_ByUnmarshallingJSON;
      autorest_ByClosing ] NameAvailabilityFields_zero in
  ({| NameAvailability_Response := {| Response := resp |};
      NameAvailability_Fields := result |}, err).

(** **** Validating *)

Record Constraint := {
  Target : string;
  Constraint_Name : string;
  Rule : bool
  (* Chain: nil wherever this file builds a constraint *)
}.

Definition validation_Null : string := "Null".

(** The part of a target between its first and second dot: the field. *)
Fixpoint until_dot (s : string) : string :=
  match s with
  | EmptyString => ""
  | String c s' => if Ascii.eqb c "." then "" else String c (until_dot s')
  end.

Fixpoint after_dot (s : string) : string :=
  match s with
  | EmptyString => ""
  | String c s' => if Ascii.eqb c "." then until_dot s' else after_dot s'
  end.

(** Modelled from the spec: [validation.Validate] checks each constraint
    against the field of the target value it names; a [Null] constraint
    with rule [true] rejects a nil pointer as a missing required parameter,
    and a constraint without chain accepts anything else. *)
Fixpoint validate_constraints (v : NameAvailabilityRequest) (cs : list Constraint)
  : option error :=
  match cs with
  | [] => None
  | c :: cs' =>
      let field := after_dot (Target c) in
      let pointer :=
        if String.eqb field "Name" then Some (Request_Name v)
        else if String.eqb field "Type" then Some (Request_Type v)
        else None in
      match pointer with
      | None => Some (validation_createError (Target c) "field doesn't exist")
      | Some p =>
          if String.eqb (Constraint_Name c) validation_Null && is_nil p && Rule c
          then Some (validation_createError (Target c)
                       "value can not be null; required parameter")
          else validate_constraints v cs'
      end
  end.

Fixpoint validation_Validate (m : list (NameAvailabilityRequest * list Constraint))
  : option error :=
  match m with
  | [] => None
  | (v, cs) :: m' =>
      match validate_constraints v cs with
      | Some err => Some err
      | None => validation_Validate m'
      end
  end.

(** **** Execute *)

(** The one call [ExecuteSender] places: the request goes to the sender,
    which hands back a response, an error, or both. *)
Definition sender : signature :=
  {| call := http_Request;
     answer := fun _ => (option http_Response * option error)%type |}.

Definition NameAvailability_zero : NameAvailability :=
  {| NameAvailability_Response := {| Response := None |};
     NameAvailability_Fields := NameAvailabilityFields_zero |}.

(** [ExecuteSender] sends the Execute request. *)
Definition ExecuteSender (req : http_Request)
  : prog sender (option http_Response * option error) :=
  Vis (S := sender) req (fun r => Ret r).

(** [Execute] checks the availability of name for resource. *)
Definition Execute (client : CheckNameAvailabilityClient)
    (nameAvailabilityRequest : NameAvailabilityRequest)
  : prog sender (NameAvailability * option error) :=
  let result := NameAvailability_zero in
  match validation_Validate [
          (nameAvailabilityRequest,
           [ {| Target := "nameAvailabilityRequest.Name";
                Constraint_Name := validation_Null; Rule := true |} ]) ] with
  | Some err =>
      Ret (result, Some (validation_NewErrorWithValidationError err
                           "mysql.CheckNameAvailabilityClient" "Execute"))
  | None =>
      match ExecutePreparer client nameAvailabilityRequest with
      | (req, Some err) =>
          Ret (result, Some (autorest_NewErrorWithError err
                 "mysql.CheckNameAvailabilityClient" "Execute" None
                 "Failure preparing request"))
      | (req, None) =>
          prog_bind (ExecuteSender req) (fun '(resp, err) =>
          match err with
          | Some err =>
              Ret ({| NameAvailability_Response := {| Response := resp |};
                      NameAvailability_Fields := NameAvailability_Fields result |},
                   Some (autorest_NewErrorWithError err
                     "mysql.CheckNameAvailabilityClient" "Execute" resp
                     "Failure sending request"))
          | None =>
              let '(result, err) := ExecuteResponder client resp in
              (* [resp] is a pointer: it now shows what the responder did *)
              let resp := Response (NameAvailability_Response result) in
              match err with
              | Some err =>
                  Ret (result, Some (autorest_NewErrorWithError err
                         "mysql.CheckNameAvailabilityClient" "Execute" resp
                         "Failure responding to request"))
              | None => Ret (result, None)
              end
          end)
      end
  end.
End Autorest.

(** ** Stand-ins to run the code on examples

    One choice for everything the embedding is parametric in, and two
    versions of Azure to answer the calls. *)

Definition double_quote : string := String (ascii_of_nat 34) "".

(** Quoting in the manner of [strconv.Quote], for text without control or
    non-ASCII bytes. *)
Fixpoint quote_body (s : string) : string :=
  match s with
  | EmptyString => ""
  | String c s' =>
      if Ascii.eqb c (ascii_of_nat 34) || Ascii.eqb c "\"
      then String "\" (String c (quote_body s'))
      else String c (quote_body s')
  end.

Definition status_is (code : Z) (resp : option http_Response) : bool :=
  match resp with
  | Some r => Z.eqb (StatusCode r) code
  | None => false
  end.

Definition example_Externals : Externals := {|
  strconv_Quote := fun s => double_quote ++ quote_body s ++ double_quote;
  fmt_Pointer := fun p => match p with Some _ => "0xc000010000" | None => "<nil>" end;
  schema_SetError := fun _ _ => None;
  azureRMNormalizeLocation := fun location => strings_Replace location " " "";
  expandTags := fun tags =>
    (fun v => match v with VString s => Some s | _ => None end) <$> tags;
  utils_ResponseWasNotFound := fun r => status_is http_StatusNotFound (Response r);
  response_WasNotFound := status_is http_StatusNotFound
|}.

Definition example_flattenAndSetTags (tags : gmap string (option string)) : St (option error) :=
  d_Set (H := example_Externals) "tags" (VMap ((fun v => VString (default "" v)) <$> tags)).

(** Resource IDs of the form
    [/subscriptions/S/resourceGroups/G/providers/P/kind/name]. *)
Fixpoint split_slash (s : string) : list string :=
  match s with
  | EmptyString => [""]
  | String c s' =>
      if Ascii.eqb c "/" then "" :: split_slash s'
      else match split_slash s' with
           | h :: t => String c h :: t
           | [] => [String c ""]
           end
  end.

Fixpoint pair_up (l : list string) : option (list (string * string)) :=
  match l with
  | [] => Some []
  | k :: v :: l' => (fun ps => (k, v) :: ps) <$> pair_up l'
  | [_] => None
  end.

Definition example_parseAzureResourceID (id : string) : error + ResourceID :=
  match pair_up (filter (fun c => c <> "") (split_slash id)) with
  | None => inl (errors_New ("The number of path segments is not divisible by 2 in " ++ id))
  | Some ps =>
      let m : gmap string string := list_to_map ps in
      match m !! "subscriptions", m !! "resourceGroups" with
      | Some subscription, Some group =>
          inr {| SubscriptionID := subscription;
                 ResourceGroup := group;
                 Provider := map_index m "providers";
                 Path := delete "providers" (delete "resourceGroups" (delete "subscriptions" m)) |}
      | _, _ => inl (errors_New ("No subscription or resource group in " ++ id))
      end
  end.

Definition JobCollectionDefinition_zero : JobCollectionDefinition :=
  {| Collection_Response := {| Response := None |};
     ID := None; Name := None; Location := None; Tags := ∅; Properties := None |}.

Definition response_with (code : Z) : http_Response :=
  {| StatusCode := code; Body := ""; BodyClosed := false |}.

Definition example_collection_id (resourceGroup name : string) : string :=
  "/subscriptions/sub1/resourceGroups/" ++ resourceGroup ++
  "/providers/Microsoft.Scheduler/jobCollections/" ++ name.

(** An Azure that keeps the job collections it was given, by resource group
    and name, and answers 404 for the others. *)
Definition azure_store : handler scheduler (gmap (string * string) JobCollectionDefinition) :=
  fun c =>
    match c as c' return gmap (string * string) JobCollectionDefinition ->
                         client_answer c' * gmap (string * string) JobCollectionDefinition with
    | client_CreateOrUpdate resourceGroup name collection => fun w =>
        let stored :=
          {| Collection_Response := {| Response := Some (response_with 200) |};
             ID := Some (example_collection_id resourceGroup name);
             Name := Some name;
             Location := Location collection;
             Tags := Tags collection;
             Properties := Properties collection |} in
        ((stored, None), <[(resourceGroup, name) := stored]> w)
    | client_Get resourceGroup name => fun w =>
        match w !! (resourceGroup, name) with
        | Some stored => ((stored, None), w)
        | None =>
            (({| Collection_Response := {| Response := Some (response_with 404) |};
                 ID := None; Name := None; Location := None; Tags := ∅;
                 Properties := None |},
              Some (errors_New "StatusCode=404 Code=ResourceNotFound")), w)
        end
    | client_Delete resourceGroup name => fun w =>
        match w !! (resourceGroup, name) with
        | Some _ =>
            (({| Future_Response := Some (response_with 200) |}, None),
             delete (resourceGroup, name) w)
        | None =>
            (({| Future_Response := Some (response_with 404) |},
              Some (errors_New "StatusCode=404 Code=ResourceNotFound")), w)
        end
    | future_WaitForCompletion future => fun w => ((future, None), w)
    end.

(** An Azure that answers every call with a 500. *)
Definition azure_outage : handler scheduler unit :=
  fun c =>
    match c as c' return unit -> client_answer c' * unit with
    | client_CreateOrUpdate _ _ _ | client_Get _ _ => fun w =>
        (({| Collection_Response := {| Response := Some (response_with 500) |};
             ID := None; Name := None; Location := None; Tags := ∅;
             Properties := None |},
          Some (errors_New "StatusCode=500 Code=InternalServerError")), w)
    | client_Delete _ _ | future_WaitForCompletion _ => fun w =>
        (({| Future_Response := Some (response_with 500) |},
          Some (errors_New "StatusCode=500 Code=InternalServerError")), w)
    end.

(** A configuration as Terraform hands it to create/update, given the quota
    block. *)
Definition example_config (quotaBlock : gmap string value) : ResourceData :=
  {| rd_id := "";
     rd_fields :=
       <["name" := VString "jobs"]> (
       <["location" := VString "West Europe"]> (
       <["resource_group_name" := VString "rg1"]> (
       <["tags" := VMap ∅]> (
       <["sku" := VString "Standard"]> (
       <["state" := VString "Enabled"]> (
       <["quota" := VList [VMap quotaBlock]]> ∅)))))) |}.

Definition example_quota (count : Z) : gmap string value :=
  <["max_job_count" := VInt count]> (
  <["max_recurrence_frequency" := VString "Hour"]> (
  <["max_retry_interval" := VInt 10]> ∅)).

(** The state Terraform hands to read and delete: only the ID is looked at. *)
Definition example_state : ResourceData :=
  {| rd_id := example_collection_id "rg1" "jobs"; rd_fields := ∅ |}.

(** Stand-ins for what the MySQL client takes from the SDK: a
    [NameAvailability] with a message and a flag, and a decoder that knows
    two documents and rejects everything else. *)
Definition json_member (key val : string) : string :=
  double_quote ++ key ++ double_quote ++ ":" ++ double_quote ++ val ++ double_quote.

Definition example_Marshal (r : NameAvailabilityRequest) : error + string :=
  inr (match Request_Name r, Request_Type r with
       | Some n, Some t => "{" ++ json_member "name" n ++ "," ++ json_member "type" t ++ "}"
       | Some n, None => "{" ++ json_member "name" n ++ "}"
       | None, Some t => "{" ++ json_member "type" t ++ "}"
       | None, None => "{}"
       end).

Definition example_Unmarshal (b : string) (v : option string * option bool)
  : (option string * option bool) * option error :=
  if String.eqb b ("{" ++ double_quote ++ "nameAvailable" ++ double_quote ++ ":true}")
  then ((fst v, Some true), None)
  else if String.eqb b "{}" then (v, None)
  else (v, Some (errors_New "invalid character looking for beginning of value")).

Definition example_SdkExternals : SdkExternals := {|
  NameAvailabilityFields := (option string * option bool)%type;
  NameAvailabilityFields_zero := (None, None);
  autorest_Encode := fun _ s => s;
  json_Marshal := example_Marshal;
  json_Unmarshal := example_Unmarshal;
  azure_RequestError := fun _ => errors_New "autorest/azure: Service returned an error.";
  validation_createError := fun target details => errors_New (target ++ ": " ++ details);
  validation_NewErrorWithValidationError := fun err packageType method =>
    errors_New (packageType ++ "#" ++ method ++ ": Invalid input: " ++ Error err);
  autorest_NewErrorWithError := fun err packageType method _ message =>
    errors_New (packageType ++ "#" ++ method ++ ": " ++ message ++ ": " ++ Error err)
|}.

Definition example_client : CheckNameAvailabilityClient :=
  {| BaseURI := "https://management.azure.com";
     Client_SubscriptionID := "sub1";
     ResponseInspector := None |}.

(** ** Vocabulary of the properties *)

(** The outcome [o] is an error whose text names the job collection and the
    resource group, each as [%q] prints it, and ends with the text of the
    SDK error [sdk]. *)
Definition wraps_sdk_error `{Externals} (name resourceGroup : string) (sdk : error)
    (o : outcome) : Prop :=
  exists err before between,
    o.2 = Val (Some err) /\
    Error err = before ++ strconv_Quote name ++ between ++
                strconv_Quote resourceGroup ++ "): " ++ Error sdk.

(** A run that placed exactly one call. *)
Definition exactly_one_call {A W} (r : run_result scheduler A W) : Prop :=
  List.length (calls r) = 1%nat.

(** A piece of code that leaves the resource ID as it found it. *)
Definition keeps_id {A} (m : St A) : Prop :=
  forall d, rd_id (m d).1 = rd_id d.

(** The preparer handed back a request and no error. *)
Definition prepared_request `{SdkExternals} (r : http_Request * option error)
  : option http_Request :=
  match r with
  | (req, None) => Some req
  | (_, Some _) => None
  end.

(** The response inspector of the client, if any, finds no fault. *)
Definition inspector_accepts (client : CheckNameAvailabilityClient) (resp : http_Response)
  : Prop :=
  match ResponseInspector client with
  | None => True
  | Some inspect => inspect resp = None
  end.

(** The claim that the status code alone decides whether the responder
    reports success. *)
Definition status_decides_success `{SdkExternals} (client : CheckNameAvailabilityClient)
    (resp : http_Response) : Prop :=
  (ExecuteResponder client (Some resp)).2 = None <-> StatusCode resp = http_StatusOK.

(** ** Further vocabulary and stand-ins *)

(** What [expand] reads under an integer key and under the frequency key of
    a quota block: a value of another type, or none at all, is passed over. *)
Definition int32_field (x : gmap string value) (key : string) : option Z :=
  match x !! key with
  | Some (VInt v) => Some (to_int32 v)
  | _ => None
  end.

Definition string_field (x : gmap string value) (key : string) : string :=
  match x !! key with
  | Some (VString v) => v
  | _ => ""
  end.

Definition known_keys : list string :=
  ["max_job_count"; "max_recurrence_frequency"; "max_retry_interval"].

(** Two quota blocks that hold the same under each known key. *)
Definition agree_on_known_fields (x x' : gmap string value) : Prop :=
  forall key, key ∈ known_keys -> x !! key = x' !! key.

(** An Azure that answers every call with an empty value and no error. *)
Definition azure_blank : handler scheduler unit :=
  fun c =>
    match c as c' return unit -> client_answer c' * unit with
    | client_CreateOrUpdate _ _ _ | client_Get _ _ => fun w =>
        ((JobCollectionDefinition_zero, None), w)
    | client_Delete _ _ | future_WaitForCompletion _ => fun w =>
        (({| Future_Response := None |}, None), w)
    end.

(** As [example_Externals], with a Terraform that refuses to write the
    quota. *)
Definition refusing_Externals : Externals := {|
  strconv_Quote := strconv_Quote (Externals := example_Externals);
  fmt_Pointer := fmt_Pointer (Externals := example_Externals);
  schema_SetError := fun key _ =>
    if String.eqb key "quota" then Some (errors_New "quota: should be a list") else None;
  azureRMNormalizeLocation := azureRMNormalizeLocation (Externals := example_Externals);
  expandTags := expandTags (Externals := example_Externals);
  utils_ResponseWasNotFound := utils_ResponseWasNotFound (Externals := example_Externals);
  response_WasNotFound := response_WasNotFound (Externals := example_Externals)
|}.


(** As [example_Externals], with a Terraform that takes the quota and
    refuses every other write. *)
Definition picky_Externals : Externals := {|
  strconv_Quote := strconv_Quote (Externals := example_Externals);
  fmt_Pointer := fmt_Pointer (Externals := example_Externals);
  schema_SetError := fun key _ =>
    if String.eqb key "quota" then None else Some (errors_New (key ++ ": refused"));
  azureRMNormalizeLocation := azureRMNormalizeLocation (Externals := example_Externals);
  expandTags := expandTags (Externals := example_Externals);
  utils_ResponseWasNotFound := utils_ResponseWasNotFound (Externals := example_Externals);
  response_WasNotFound := response_WasNotFound (Externals := example_Externals)
|}.

(** A collection as Azure returns it, with and without a location. *)
Definition example_properties : JobCollectionProperties :=
  {| Properties_Sku := Some {| Sku_Name := "Standard" |};
     State := "Enabled";
     Quota := Some {| MaxJobCount := Some 5;
                      MaxRecurrence := Some {| Frequency := "Hour";
                                               Interval := Some 10 |} |} |}.

Definition example_collection (location : option string) : JobCollectionDefinition :=
  {| Collection_Response := {| Response := Some (response_with 200) |};
     ID := Some (example_collection_id "rg1" "jobs");
     Name := Some "jobs";
     Location := location;
     Tags := ∅;
     Properties := Some example_properties |}.

(** A sender that answers every request the same way. *)
Definition sender_answering (resp : option http_Response) (err : option error)
  : handler sender unit :=
  fun _ w => ((resp, err), w).

Definition example_request : NameAvailabilityRequest :=
  {| Request_Name := Some "db1"; Request_Type := None |}.

Definition available_body : string :=
  "{" ++ double_quote ++ "nameAvailable" ++ double_quote ++ ":true}".

(** * Properties *)

(** ** Quota *)

Lemma to_int32_in_range (v : Z) : in_int32 v -> to_int32 v = v.
Proof.
  unfold in_int32, int32_min, int32_max, to_int32. intros Hv.
  rewrite Z.mod_small; lia.
Qed.

Lemma expand_known_fields (d : ResourceData) (x : gmap string value) rest count freq retry :
  d_Get d "quota" = VList (VMap x :: rest) ->
  known_fields x count freq retry ->
  expandAzureArmSchedulerJobCollectionQuota d =
    Val (Some {| MaxJobCount := Some (to_int32 count);
                 MaxRecurrence := Some {| Frequency := freq;
                                          Interval := Some (to_int32 retry) |} |}).
Proof.
  intros Hq [Hc Hf Hr]. unfold expandAzureArmSchedulerJobCollectionQuota.
  rewrite Hq. cbn [assertMap res_bind]. rewrite Hc, Hf, Hr. reflexivity.
Qed.

Lemma flatten_full_quota (count retry : Z) (freq : string) :
  flattenAzureArmSchedulerJobCollectionQuota
    (Some {| MaxJobCount := Some count;
             MaxRecurrence := Some {| Frequency := freq; Interval := Some retry |} |}) =
  [VMap (<["max_recurrence_frequency" := VString freq]> (
         <["max_retry_interval" := VInt32 retry]> (
         <["max_job_count" := VInt32 count]> ∅)))].
Proof. reflexivity. Qed.

(** The block that flattening an expanded quota yields, field by field. *)
Lemma expand_flatten_fields (d : ResourceData) (x : gmap string value) rest count freq retry :
  d_Get d "quota" = VList (VMap x :: rest) ->
  known_fields x count freq retry ->
  exists quota y,
    expandAzureArmSchedulerJobCollectionQuota d = Val quota /\
    flattenAzureArmSchedulerJobCollectionQuota quota = [VMap y] /\
    y !! "max_job_count" = Some (VInt32 (to_int32 count)) /\
    y !! "max_recurrence_frequency" = Some (VString freq) /\
    y !! "max_retry_interval" = Some (VInt32 (to_int32 retry)).
Proof.
  intros Hq Hk. eexists _, _. split; [exact (expand_known_fields _ _ _ _ _ _ Hq Hk)|].
  split; [apply flatten_full_quota|].
  repeat split; simplify_map_eq; reflexivity.
Qed.

(** C1, as amended: for every quota block [x] that carries the three known
    fields with [max_job_count] and [max_retry_interval] inside the int32
    range, flattening the expanded quota yields a one-element list whose map
    carries the same numbers (as int32 values) and the same frequency string
    as [x]. *)
Theorem quota_roundtrip_within_int32
    (d : ResourceData) (x : gmap string value) (rest : list value)
    (count retry : Z) (freq : string) :
  d_Get d "quota" = VList (VMap x :: rest) ->
  known_fields x count freq retry ->
  in_int32 count -> in_int32 retry ->
  quota_roundtrips d x.
Proof.
  intros Hq Hk Hc Hr.
  destruct (expand_flatten_fields d x rest count freq retry Hq Hk)
    as (quota & y & He & Hf & Hyc & Hyf & Hyr).
  rewrite (to_int32_in_range _ Hc) in Hyc. rewrite (to_int32_in_range _ Hr) in Hyr.
  exists quota, y. split; [exact He|]. split; [exact Hf|].
  destruct Hk as [Hxc Hxf Hxr].
  intros key Hkey. set_unfold in Hkey.
  destruct Hkey as [->|[->|[->|[]]]]; eexists _, _;
    (split; [eassumption|split; [eassumption|reflexivity]]).
Qed.

Lemma quota_roundtrip_within_int32_witness :
  quota_roundtrips (example_config (example_quota 5)) (example_quota 5).
Proof.
  apply (quota_roundtrip_within_int32 _ _ [] 5 10 "Hour").
  - reflexivity.
  - split; reflexivity.
  - unfold in_int32, int32_min, int32_max. lia.
  - unfold in_int32, int32_min, int32_max. lia.
Defined.

(** C1, as stated, fails: a block whose [max_job_count] is 2^31 passes the
    schema (an int that is at least 0) and comes back as -2^31. *)
Lemma quota_roundtrip_fails_beyond_int32 :
  d_Get (example_config (example_quota 2147483648)) "quota"
    = VList [VMap (example_quota 2147483648)] /\
  known_fields (example_quota 2147483648) 2147483648 "Hour" 10 /\
  ~ quota_roundtrips (example_config (example_quota 2147483648)) (example_quota 2147483648).
Proof.
  assert (Hq : d_Get (example_config (example_quota 2147483648)) "quota"
               = VList [VMap (example_quota 2147483648)]) by reflexivity.
  assert (Hk : known_fields (example_quota 2147483648) 2147483648 "Hour" 10)
    by (split; reflexivity).
  split; [exact Hq|]. split; [exact Hk|].
  intros (quota & y & He & Hf & Hsame).
  destruct (expand_flatten_fields _ _ _ _ _ _ Hq Hk)
    as (quota' & y' & He' & Hf' & Hyc & _ & _).
  rewrite He in He'. injection He' as <-.
  rewrite Hf in Hf'. injection Hf' as <-.
  destruct (Hsame "max_job_count") as (u & v & Hu & Hv & Huv); [set_solver|].
  rewrite Hyc in Hv. injection Hv as <-.
  destruct Hk as [Hxc _ _]. rewrite Hxc in Hu. injection Hu as <-.
  vm_compute in Huv. discriminate Huv.
Qed.

(** C10: expanding a configuration whose quota list is empty or missing
    yields the nil pointer; flattening yields the nil (empty) block list
    exactly for the nil quota, and a list of exactly one element for every
    other quota. *)
Theorem quota_absence_roundtrips :
  (forall d : ResourceData,
     rd_fields d !! "quota" = None \/ d_Get d "quota" = VList [] ->
     expandAzureArmSchedulerJobCollectionQuota d = Val None) /\
  (forall quota : option JobCollectionQuota,
     flattenAzureArmSchedulerJobCollectionQuota quota = [] <-> quota = None) /\
  (forall quota : JobCollectionQuota,
     exists block, flattenAzureArmSchedulerJobCollectionQuota (Some quota) = [block]).
Proof.
  split; [|split].
  - intros d [Hnone|Hempty]; unfold expandAzureArmSchedulerJobCollectionQuota.
    + unfold d_Get. rewrite Hnone. reflexivity.
    + rewrite Hempty. reflexivity.
  - intros [quota|]; split; intros Hq; try reflexivity; discriminate Hq.
  - intros quota. eexists. reflexivity.
Qed.

(** ** The resource operations *)

Section ResourceProperties.
Context `{Externals}.
Context (flattenAndSetTags : gmap string (option string) -> St (option error)).
Context (parseAzureResourceID : string -> error + ResourceID).

Local Abbreviation CreateUpdate :=
  (resourceArmSchedulerJobCollectionCreateUpdate flattenAndSetTags).
Local Abbreviation Read :=
  (resourceArmSchedulerJobCollectionRead flattenAndSetTags parseAzureResourceID).
Local Abbreviation Delete :=
  (resourceArmSchedulerJobCollectionDelete parseAzureResourceID).
Local Abbreviation Populate :=
  (resourceArmSchedulerJobCollectionPopulate flattenAndSetTags).

(** *** What keeps the resource ID *)

Lemma keeps_id_ret {A} (a : A) : keeps_id (st_ret a).
Proof. intros d. reflexivity. Qed.

Lemma keeps_id_bind {A B} (m : St A) (f : A -> St B) :
  keeps_id m -> (forall a, keeps_id (f a)) -> keeps_id (st_bind m f).
Proof.
  intros Hm Hf d. unfold st_bind. specialize (Hm d).
  destruct (m d) as [d' [a|]]; cbn in *; [|exact Hm].
  rewrite Hf. exact Hm.
Qed.

Lemma keeps_id_deref {A} (p : option A) : keeps_id (deref p).
Proof. intros d. destruct p; reflexivity. Qed.

Lemma keeps_id_d_Set (key : string) (v : value) : keeps_id (d_Set key v).
Proof. intros d. unfold d_Set. destruct (schema_SetError key v); reflexivity. Qed.

Lemma keeps_id_Populate (resourceGroup : string) (resp : JobCollectionDefinition) :
  (forall tags, keeps_id (flattenAndSetTags tags)) ->
  keeps_id (Populate resourceGroup resp).
Proof.
  intros Htags. unfold resourceArmSchedulerJobCollectionPopulate.
  repeat first
    [ apply keeps_id_bind; [|intros ?]
    | apply keeps_id_d_Set
    | apply keeps_id_deref
    | apply keeps_id_ret
    | apply Htags
    | match goal with |- keeps_id (match ?x with _ => _ end) => destruct x end ].
Qed.

(** *** Read *)

(** C2: when the [Get] call of a read returns an error and the response
    says the resource was not found, the read sets the resource ID to the
    empty string, touches no field and returns nil. *)
Theorem read_not_found_clears_state {W} (h : handler scheduler W) (w w' : W)
    (d : ResourceData) (id : ResourceID)
    (collection : JobCollectionDefinition) (err : error) :
  parseAzureResourceID (d_Id d) = inr id ->
  h (client_Get (ResourceGroup id) (map_index (Path id) "jobCollections")) w
    = ((collection, Some err), w') ->
  utils_ResponseWasNotFound (Collection_Response collection) = true ->
  run h w (Read d) =
    {| result := ({| rd_id := ""; rd_fields := rd_fields d |}, Val None);
       world := w';
       calls := [client_Get (ResourceGroup id) (map_index (Path id) "jobCollections")
                   : call scheduler] |}.
Proof.
  intros Hid Hget Hnf. unfold resourceArmSchedulerJobCollectionRead.
  rewrite Hid. cbn [run]. rewrite Hget. rewrite Hnf. reflexivity.
Qed.

(** *** Delete *)


(** *** Error messages *)

Lemma append_empty_r (s : string) : s ++ "" = s.
Proof.
  induction s as [|c s IH]; [reflexivity|].
  change (String c (s ++ "") = String c s). rewrite IH. reflexivity.
Qed.

Lemma Errorf_wraps (format before between name resourceGroup : string)
    (sdk : error) (d : ResourceData) :
  fmt_Sprintf format [OpString name; OpString resourceGroup; OpError sdk]
    = before ++ strconv_Quote name ++ between ++
      strconv_Quote resourceGroup ++ "): " ++ Error sdk ->
  wraps_sdk_error name resourceGroup sdk
    (d, Val (Some (fmt_Errorf format
                     [OpString name; OpString resourceGroup; OpError sdk]))).
Proof. intros Hfmt. eexists _, before, between. split; [reflexivity|exact Hfmt]. Qed.

Ltac wraps_by before between :=
  apply (Errorf_wraps _ before between);
  cbn [fmt_Sprintf fmt_q fmt_plus_v]; rewrite append_empty_r; reflexivity.

Lemma create_error_is_wrapped {W} (h : handler scheduler W) (w w' : W) (d : ResourceData)
    (name resourceGroup : string) (collection created : JobCollectionDefinition)
    (sdk : error) :
  createUpdate_collection d = Val (name, resourceGroup, collection) ->
  h (client_CreateOrUpdate resourceGroup name collection) w = ((created, Some sdk), w') ->
  wraps_sdk_error name resourceGroup sdk (result (run h w (CreateUpdate d))).
Proof.
  intros Hprep Hcreate. unfold resourceArmSchedulerJobCollectionCreateUpdate.
  rewrite Hprep. cbn [run]. rewrite Hcreate. cbn [result run].
  wraps_by "Error creating/updating Scheduler Job Collection " " (Resource Group ".
Qed.

Lemma get_after_create_error_is_wrapped {W} (h : handler scheduler W) (w w1 w2 : W)
    (d : ResourceData) (name resourceGroup : string)
    (collection created read : JobCollectionDefinition) (sdk : error) :
  createUpdate_collection d = Val (name, resourceGroup, collection) ->
  h (client_CreateOrUpdate resourceGroup name collection) w = ((created, None), w1) ->
  h (client_Get resourceGroup name) w1 = ((read, Some sdk), w2) ->
  wraps_sdk_error name resourceGroup sdk (result (run h w (CreateUpdate d))).
Proof.
  intros Hprep Hcreate Hget. unfold resourceArmSchedulerJobCollectionCreateUpdate.
  rewrite Hprep. cbn [run]. rewrite Hcreate. cbn [run]. rewrite Hget. cbn [result run].
  wraps_by "Error reading Scheduler Job Collection " " after create/update (Resource Group ".
Qed.

Lemma read_error_is_wrapped {W} (h : handler scheduler W) (w w' : W)
    (d : ResourceData) (id : ResourceID)
    (collection : JobCollectionDefinition) (sdk : error) :
  parseAzureResourceID (d_Id d) = inr id ->
  h (client_Get (ResourceGroup id) (map_index (Path id) "jobCollections")) w
    = ((collection, Some sdk), w') ->
  utils_ResponseWasNotFound (Collection_Response collection) = false ->
  wraps_sdk_error (map_index (Path id) "jobCollections") (ResourceGroup id) sdk
    (result (run h w (Read d))).
Proof.
  intros Hid Hget Hnf. unfold resourceArmSchedulerJobCollectionRead.
  rewrite Hid. cbn [run]. rewrite Hget, Hnf. cbn [result run].
  wraps_by "Error making Read request on Scheduler Job Collection " " (Resource Group ".
Qed.

Lemma delete_error_is_wrapped {W} (h : handler scheduler W) (w w' : W)
    (d : ResourceData) (id : ResourceID) (future : Future) (sdk : error) :
  parseAzureResourceID (d_Id d) = inr id ->
  h (client_Delete (ResourceGroup id) (map_index (Path id) "jobCollections")) w
    = ((future, Some sdk), w') ->
  response_WasNotFound (Future_Response future) = false ->
  wraps_sdk_error (map_index (Path id) "jobCollections") (ResourceGroup id) sdk
    (result (run h w (Delete d))).
Proof.
  intros Hid Hdel Hnf. unfold resourceArmSchedulerJobCollectionDelete.
  rewrite Hid. cbn [run]. rewrite Hdel, Hnf. cbn [negb result run].
  wraps_by "Error issuing delete request for Scheduler Job Collection " " (Resource Group ".
Qed.

Lemma wait_error_is_wrapped {W} (h : handler scheduler W) (w w1 w2 : W)
    (d : ResourceData) (id : ResourceID) (future future' : Future)
    (err1 : option error) (sdk : error) :
  parseAzureResourceID (d_Id d) = inr id ->
  h (client_Delete (ResourceGroup id) (map_index (Path id) "jobCollections")) w
    = ((future, err1), w1) ->
  err1 = None \/ response_WasNotFound (Future_Response future) = true ->
  h (future_WaitForCompletion future) w1 = ((future', Some sdk), w2) ->
  response_WasNotFound (Future_Response future') = false ->
  wraps_sdk_error (map_index (Path id) "jobCollections") (ResourceGroup id) sdk
    (result (run h w (Delete d))).
Proof.
  intros Hid Hdel H1 Hwait Hnf. unfold resourceArmSchedulerJobCollectionDelete.
  rewrite Hid. cbn [run]. rewrite Hdel.
  destruct err1 as [e1|].
  - destruct H1 as [H1|H1]; [discriminate H1|]. rewrite H1. cbn [negb run].
    rewrite Hwait, Hnf. cbn [negb result run].
    wraps_by "Error waiting for deletion of Scheduler Job Collection " " (Resource Group ".
  - cbn [run]. rewrite Hwait, Hnf. cbn [negb result run].
    wraps_by "Error waiting for deletion of Scheduler Job Collection " " (Resource Group ".
Qed.

(** C4: whenever a call of the SDK fails and the failure is not put down
    to a not-found response, the operation returns an error whose text
    names the job collection and the resource group (as [%q] prints them)
    and ends with the text of the SDK error: for both calls of
    create/update (whatever the response), for the call of read, and for
    the call and the wait of delete. *)
Theorem sdk_errors_are_wrapped {W} (h : handler scheduler W) (d : ResourceData) :
  (forall w w' name resourceGroup collection created sdk,
     createUpdate_collection d = Val (name, resourceGroup, collection) ->
     h (client_CreateOrUpdate resourceGroup name collection) w = ((created, Some sdk), w') ->
     wraps_sdk_error name resourceGroup sdk (result (run h w (CreateUpdate d)))) /\
  (forall w w1 w2 name resourceGroup collection created read sdk,
     createUpdate_collection d = Val (name, resourceGroup, collection) ->
     h (client_CreateOrUpdate resourceGroup name collection) w = ((created, None), w1) ->
     h (client_Get resourceGroup name) w1 = ((read, Some sdk), w2) ->
     wraps_sdk_error name resourceGroup sdk (result (run h w (CreateUpdate d)))) /\
  (forall w w' id collection sdk,
     parseAzureResourceID (d_Id d) = inr id ->
     h (client_Get (ResourceGroup id) (map_index (Path id) "jobCollections")) w
       = ((collection, Some sdk), w') ->
     utils_ResponseWasNotFound (Collection_Response collection) = false ->
     wraps_sdk_error (map_index (Path id) "jobCollections") (ResourceGroup id) sdk
       (result (run h w (Read d)))) /\
  (forall w w' id future sdk,
     parseAzureResourceID (d_Id d) = inr id ->
     h (client_Delete (ResourceGroup id) (map_index (Path id) "jobCollections")) w
       = ((future, Some sdk), w') ->
     response_WasNotFound (Future_Response future) = false ->
     wraps_sdk_error (map_index (Path id) "jobCollections") (ResourceGroup id) sdk
       (result (run h w (Delete d)))) /\
  (forall w w1 w2 id future future' err1 sdk,
     parseAzureResourceID (d_Id d) = inr id ->
     h (client_Delete (ResourceGroup id) (map_index (Path id) "jobCollections")) w
       = ((future, err1), w1) ->
     err1 = None \/ response_WasNotFound (Future_Response future) = true ->
     h (future_WaitForCompletion future) w1 = ((future', Some sdk), w2) ->
     response_WasNotFound (Future_Response future') = false ->
     wraps_sdk_error (map_index (Path id) "jobCollections") (ResourceGroup id) sdk
       (result (run h w (Delete d)))).
Proof.
  repeat split; intros.
  - eapply create_error_is_wrapped; eassumption.
  - eapply get_after_create_error_is_wrapped; eassumption.
  - eapply read_error_is_wrapped; eassumption.
  - eapply delete_error_is_wrapped; eassumption.
  - eapply wait_error_is_wrapped; eassumption.
Qed.

(** *** Calls placed *)

(** C5, as amended: a read places exactly one call, [Get], when the
    resource ID parses (none otherwise); a delete places exactly one client
    call, [Delete], when the resource ID parses, and then waits on the
    future it got unless that call failed with a response other than not
    found; create/update places [CreateOrUpdate] and, when that succeeds, a
    follow-up [Get]: two client calls. *)
Theorem calls_per_operation {W} (h : handler scheduler W) (w : W) (d : ResourceData) :
  calls (run h w (Read d)) =
    match parseAzureResourceID (d_Id d) with
    | inl _ => []
    | inr id => [client_Get (ResourceGroup id) (map_index (Path id) "jobCollections")]
    end /\
  calls (run h w (Delete d)) =
    match parseAzureResourceID (d_Id d) with
    | inl _ => []
    | inr id =>
        let name := map_index (Path id) "jobCollections" in
        let '(future, err) := (h (client_Delete (ResourceGroup id) name) w).1 in
        match err with
        | Some _ =>
            if response_WasNotFound (Future_Response future)
            then [client_Delete (ResourceGroup id) name; future_WaitForCompletion future]
            else [client_Delete (ResourceGroup id) name]
        | None => [client_Delete (ResourceGroup id) name; future_WaitForCompletion future]
        end
    end /\
  calls (run h w (CreateUpdate d)) =
    match createUpdate_collection d with
    | Panic => []
    | Val (name, resourceGroup, collection) =>
        match (h (client_CreateOrUpdate resourceGroup name collection) w).1.2 with
        | Some _ => [client_CreateOrUpdate resourceGroup name collection]
        | None => [client_CreateOrUpdate resourceGroup name collection;
                   client_Get resourceGroup name]
        end
    end.
Proof.
  split; [|split].
  - unfold resourceArmSchedulerJobCollectionRead.
    destruct (parseAzureResourceID (d_Id d)) as [e|id]; [reflexivity|].
    cbn [run]. destruct (h _ w) as [[collection err] w1].
    destruct err as [e|];
      [destruct (utils_ResponseWasNotFound (Collection_Response collection))|];
      reflexivity.
  - unfold resourceArmSchedulerJobCollectionDelete.
    destruct (parseAzureResourceID (d_Id d)) as [e|id]; [reflexivity|].
    cbn [run]. destruct (h _ w) as [[future err] w1]. cbn [fst].
    destruct err as [e|]; [destruct (response_WasNotFound (Future_Response future))|];
      cbn [negb run calls]; try reflexivity;
      destruct (h _ w1) as [[future' err'] w2];
      (destruct err' as [e'|];
         [destruct (response_WasNotFound (Future_Response future'))|]);
      reflexivity.
  - unfold resourceArmSchedulerJobCollectionCreateUpdate.
    destruct (createUpdate_collection d) as [[[name resourceGroup] collection]|];
      [|reflexivity].
    cbn [run]. destruct (h _ w) as [[created err] w1]. cbn [fst snd].
    destruct err as [e|]; [reflexivity|].
    cbn [run calls]. destruct (h _ w1) as [[read err'] w2].
    destruct err' as [e'|]; [reflexivity|]. destruct (ID read); reflexivity.
Qed.

(** *** The resource ID *)

(** C6: create/update sets the resource ID to the ID of the collection
    that the follow-up [Get] returned, and only once [CreateOrUpdate] and
    [Get] have both succeeded: the fields are then populated on the
    [ResourceData] that carries this ID. If either call fails, it returns
    an error and leaves the [ResourceData], ID included, as it was. *)
Theorem create_update_sets_id_after_both_calls {W} (h : handler scheduler W)
    (d : ResourceData) (name resourceGroup : string)
    (collection : JobCollectionDefinition) :
  createUpdate_collection d = Val (name, resourceGroup, collection) ->
  (forall w w1 created sdk,
     h (client_CreateOrUpdate resourceGroup name collection) w = ((created, Some sdk), w1) ->
     exists e, result (run h w (CreateUpdate d)) = (d, Val (Some e))) /\
  (forall w w1 w2 created read sdk,
     h (client_CreateOrUpdate resourceGroup name collection) w = ((created, None), w1) ->
     h (client_Get resourceGroup name) w1 = ((read, Some sdk), w2) ->
     exists e, result (run h w (CreateUpdate d)) = (d, Val (Some e))) /\
  (forall w w1 w2 created read id,
     h (client_CreateOrUpdate resourceGroup name collection) w = ((created, None), w1) ->
     h (client_Get resourceGroup name) w1 = ((read, None), w2) ->
     ID read = Some id ->
     result (run h w (CreateUpdate d)) = Populate resourceGroup read (d_SetId id d) /\
     ((forall tags, keeps_id (flattenAndSetTags tags)) ->
      d_Id (result (run h w (CreateUpdate d))).1 = id)).
Proof.
  intros Hprep. unfold resourceArmSchedulerJobCollectionCreateUpdate.
  rewrite Hprep. split; [|split].
  - intros w w1 created sdk Hcreate. cbn [run]. rewrite Hcreate.
    eexists. reflexivity.
  - intros w w1 w2 created read sdk Hcreate Hget.
    cbn [run]. rewrite Hcreate. cbn [run]. rewrite Hget. eexists. reflexivity.
  - intros w w1 w2 created read id Hcreate Hget Hid.
    cbn [run]. rewrite Hcreate. cbn [run]. rewrite Hget, Hid. cbn [result run].
    split; [reflexivity|].
    intros Htags. unfold d_Id. rewrite (keeps_id_Populate _ _ Htags). reflexivity.
Qed.
End ResourceProperties.

(** *** The operations on the examples *)

Lemma read_not_found_clears_state_witness :
  run azure_store ∅
    (resourceArmSchedulerJobCollectionRead (H := example_Externals)
       example_flattenAndSetTags example_parseAzureResourceID example_state) =
  {| result := ({| rd_id := ""; rd_fields := ∅ |}, Val None);
     world := ∅;
     calls := [client_Get "rg1" "jobs" : call scheduler] |}.
Proof.
  etransitivity.
  - eapply (read_not_found_clears_state (H := example_Externals)
              example_flattenAndSetTags example_parseAzureResourceID
              azure_store ∅ ∅ example_state
              {| SubscriptionID := "sub1"; ResourceGroup := "rg1";
                 Provider := "Microsoft.Scheduler";
                 Path := {[ "jobCollections" := "jobs" ]} |});
      vm_compute; reflexivity.
  - vm_compute. reflexivity.
Defined.



Lemma sdk_errors_are_wrapped_witness :
  wraps_sdk_error (H := example_Externals) "jobs" "rg1"
    (errors_New "StatusCode=500 Code=InternalServerError")
    (result (run azure_outage tt
       (resourceArmSchedulerJobCollectionCreateUpdate (H := example_Externals)
          example_flattenAndSetTags (example_config (example_quota 5))))).
Proof.
  eapply (proj1 (sdk_errors_are_wrapped (H := example_Externals)
                   example_flattenAndSetTags example_parseAzureResourceID
                   azure_outage (example_config (example_quota 5)))).
  - reflexivity.
  - reflexivity.
Defined.

(** C5, as stated, fails: creating a job collection on an Azure that accepts
    it places two calls, [CreateOrUpdate] and then [Get]. *)
Lemma create_update_places_two_calls :
  List.length (calls (run azure_store ∅
    (resourceArmSchedulerJobCollectionCreateUpdate (H := example_Externals)
       example_flattenAndSetTags (example_config (example_quota 5))))) = 2%nat /\
  ~ exactly_one_call (run azure_store ∅
    (resourceArmSchedulerJobCollectionCreateUpdate (H := example_Externals)
       example_flattenAndSetTags (example_config (example_quota 5)))).
Proof.
  assert (Hlen : List.length (calls (run azure_store ∅
    (resourceArmSchedulerJobCollectionCreateUpdate (H := example_Externals)
       example_flattenAndSetTags (example_config (example_quota 5))))) = 2%nat)
    by (vm_compute; reflexivity).
  split; [exact Hlen|]. unfold exactly_one_call. rewrite Hlen. discriminate.
Qed.

Lemma create_update_sets_id_witness :
  d_Id (result (run azure_store ∅
    (resourceArmSchedulerJobCollectionCreateUpdate (H := example_Externals)
       example_flattenAndSetTags (example_config (example_quota 5))))).1
  = "/subscriptions/sub1/resourceGroups/rg1/providers/Microsoft.Scheduler/jobCollections/jobs".
Proof.
  edestruct (create_update_sets_id_after_both_calls (H := example_Externals)
               example_flattenAndSetTags azure_store (example_config (example_quota 5)))
    as (_ & _ & Hboth); [reflexivity|].
  edestruct (Hboth ∅) as [_ Hid]; [reflexivity|reflexivity|reflexivity|].
  apply Hid. intros tags. apply keeps_id_d_Set.
Defined.

(** ** The MySQL CheckNameAvailability client *)

Section ClientProperties.
Context `{SdkExternals}.

(** C7: for every request whose JSON encoding is [body], [ExecutePreparer]
    builds a POST request whose path is
    [/subscriptions/{subscriptionId}/providers/Microsoft.DBforMySQL/checkNameAvailability]
    with the client's subscription ID, path-encoded, in place of the key;
    whose query carries [api-version] with value [2017-04-30-preview]; and
    whose body is [body]. It reports no error. *)
Theorem ExecutePreparer_builds_post_request (client : CheckNameAvailabilityClient)
    (request : NameAvailabilityRequest) (body : string) :
  json_Marshal request = inr body ->
  ExecutePreparer client request =
    ({| Method := "POST";
        URL := Some
          {| url_Base := BaseURI client;
             url_Path :=
               "/subscriptions/" ++ autorest_Encode "path" (Client_SubscriptionID client) ++
               "/providers/Microsoft.DBforMySQL/checkNameAvailability";
             url_Query := {[ "api-version" := ["2017-04-30-preview"] ]} |};
        Header := {[ "Content-Type" := "application/json; charset=utf-8" ]};
        Request_Body := Some body;
        ContentLength := Z.of_nat (String.length body) |}, None).
Proof.
  intros Hbody. unfold ExecutePreparer, autorest_CreatePreparer. cbn [fold_left].
  unfold autorest_WithQueryParameters, autorest_WithJSON, autorest_WithPathParameters,
    autorest_WithBaseURL, autorest_AsPost, autorest_AsJSON, prepare_then.
  cbn [URL Method Header Request_Body ContentLength http_Request_zero].
  rewrite Hbody.
  cbn [URL Method Header Request_Body ContentLength url_Base url_Path url_Query].
  rewrite !map_to_list_singleton. cbn [foldr].
  rewrite lookup_empty. reflexivity.
Qed.

Lemma validate_Name_constraint (request : NameAvailabilityRequest) :
  validation_Validate [
    (request, [ {| Target := "nameAvailabilityRequest.Name";
                   Constraint_Name := validation_Null; Rule := true |} ]) ] =
  match Request_Name request with
  | None => Some (validation_createError "nameAvailabilityRequest.Name"
                    "value can not be null; required parameter")
  | Some _ => None
  end.
Proof. cbn. destruct (Request_Name request); reflexivity. Qed.

(** C9: when [nameAvailabilityRequest.Name] is nil, [Execute] returns the
    validation error together with the empty result, and it does so
    without placing any call on the sender: no request is sent, and what
    the preparer would build plays no part. *)
Theorem Execute_rejects_nil_name (client : CheckNameAvailabilityClient)
    (request : NameAvailabilityRequest) :
  Request_Name request = None ->
  Execute client request =
    Ret (NameAvailability_zero,
         Some (validation_NewErrorWithValidationError
                 (validation_createError "nameAvailabilityRequest.Name"
                    "value can not be null; required parameter")
                 "mysql.CheckNameAvailabilityClient" "Execute")) /\
  (forall W (h : handler sender W) (w : W),
     calls (run h w (Execute client request)) = []).
Proof.
  intros Hnil.
  assert (HE : Execute client request =
    Ret (NameAvailability_zero,
         Some (validation_NewErrorWithValidationError
                 (validation_createError "nameAvailabilityRequest.Name"
                    "value can not be null; required parameter")
                 "mysql.CheckNameAvailabilityClient" "Execute"))).
  { unfold Execute. rewrite validate_Name_constraint, Hnil. reflexivity. }
  split; [exact HE|]. intros W h w. rewrite HE. reflexivity.
Qed.

(** The responder, decorator by decorator. *)
Lemma ExecuteResponder_cases (client : CheckNameAvailabilityClient) (resp : http_Response) :
  let closed body :=
    Some {| StatusCode := StatusCode resp; Body := body; BodyClosed := true |} in
  let b := bytes_TrimPrefix (Body resp) utf8_BOM in
  ExecuteResponder client (Some resp) =
    match match ResponseInspector client with
          | Some inspect => inspect resp
          | None => None
          end with
    | Some err =>
        ({| NameAvailability_Response := {| Response := closed (Body resp) |};
            NameAvailability_Fields := NameAvailabilityFields_zero |}, Some err)
    | None =>
        if bool_decide (StatusCode resp = http_StatusOK) then
          if only_spaces b then
            ({| NameAvailability_Response := {| Response := closed "" |};
                NameAvailability_Fields := NameAvailabilityFields_zero |}, None)
          else
            ({| NameAvailability_Response := {| Response := closed "" |};
                NameAvailability_Fields := (json_Unmarshal b NameAvailabilityFields_zero).1 |},
             match (json_Unmarshal b NameAvailabilityFields_zero).2 with
             | Some errInner =>
                 Some (errors_New ("Error occurred unmarshalling JSON - Error = '" ++
                                   Error errInner ++ "' JSON = '" ++ b ++ "'"))
             | None => None
             end)
        else
          ({| NameAvailability_Response := {| Response := closed (Body resp) |};
              NameAvailability_Fields := NameAvailabilityFields_zero |},
           Some (azure_RequestError resp))
    end.
Proof.
  intros closed b. subst closed b.
  unfold ExecuteResponder, autorest_Respond. cbn [fold_left].
  unfold autorest_ByClosing, autorest_ByUnmarshallingJSON,
    azure_WithErrorUnlessStatusCode, ByInspecting, respond_then, set_Body.
  destruct resp as [status body bodyClosed]. cbn [rs_resp rs_result StatusCode Body BodyClosed].
  destruct (ResponseInspector client) as [inspect|]; cbn [rs_resp rs_result];
    [destruct (inspect _) as [err|]; [reflexivity|]|];
    (destruct (decide (status = http_StatusOK)) as [Heq|Hne];
     [ rewrite (bool_decide_eq_true_2 (status = http_StatusOK)) by exact Heq;
       rewrite (bool_decide_eq_true_2 (status ∈ [http_StatusOK]))
         by (apply list_elem_of_singleton; exact Heq);
       cbn [rs_resp rs_result StatusCode Body BodyClosed];
       destruct (only_spaces _); [reflexivity|];
       destruct (json_Unmarshal _ _) as [v [errInner|]]; reflexivity
     | rewrite (bool_decide_eq_false_2 (status = http_StatusOK)) by exact Hne;
       rewrite (bool_decide_eq_false_2 (status ∈ [http_StatusOK]))
         by (rewrite list_elem_of_singleton; exact Hne);
       reflexivity ]).
Qed.

(** Once the inspector has let the response through, the status code and
    the body decide. *)
Lemma responder_after_inspection (resp : http_Response) (accepted : Prop)
    (response response' : autorest_Response) :
  let b := bytes_TrimPrefix (Body resp) utf8_BOM in
  let out :=
    if bool_decide (StatusCode resp = http_StatusOK) then
      if only_spaces b then
        ({| NameAvailability_Response := response;
            NameAvailability_Fields := NameAvailabilityFields_zero |}, None)
      else
        ({| NameAvailability_Response := response;
            NameAvailability_Fields := (json_Unmarshal b NameAvailabilityFields_zero).1 |},
         match (json_Unmarshal b NameAvailabilityFields_zero).2 with
         | Some errInner =>
             Some (errors_New ("Error occurred unmarshalling JSON - Error = '" ++
                               Error errInner ++ "' JSON = '" ++ b ++ "'"))
         | None => None
         end)
    else
      ({| NameAvailability_Response := response';
          NameAvailability_Fields := NameAvailabilityFields_zero |},
       Some (azure_RequestError resp)) in
  accepted ->
  (StatusCode resp <> http_StatusOK -> exists err, out.2 = Some err) /\
  (out.2 = None <->
     StatusCode resp = http_StatusOK /\ accepted /\
     (only_spaces b = true \/ (json_Unmarshal b NameAvailabilityFields_zero).2 = None)) /\
  (out.2 = None ->
     NameAvailability_Fields out.1 =
       if only_spaces b then NameAvailabilityFields_zero
       else (json_Unmarshal b NameAvailabilityFields_zero).1).
Proof.
  intros b out Hacc. subst out. case_bool_decide as Hst.
  - destruct (only_spaces b) eqn:Hsp; cbn [fst snd NameAvailability_Fields].
    + split; [intros Hne; contradiction|]. split; [|reflexivity].
      split; [intros _; auto|reflexivity].
    + split; [intros Hne; contradiction|]. split; [|reflexivity].
      destruct (json_Unmarshal b NameAvailabilityFields_zero).2 as [errInner|].
      * split; [intros Hnone; discriminate Hnone|].
        intros (_ & _ & [Hb|Hb]); discriminate Hb.
      * split; [intros _; auto|reflexivity].
  - cbn [fst snd]. split; [intros _; eexists; reflexivity|].
    split; [split; [intros Hnone; discriminate Hnone|intros (Hs & _); contradiction]
           |intros Hnone; discriminate Hnone].
Qed.

(** C8, as amended: [ExecuteResponder] returns an error for every status
    code other than 200 OK. For 200 OK it returns a nil error exactly when
    the client's response inspector accepts the response and the body is
    blank or unmarshals; the result then holds what was unmarshalled (the
    zero value for a blank body). *)
Theorem ExecuteResponder_by_status (client : CheckNameAvailabilityClient)
    (resp : http_Response) :
  let b := bytes_TrimPrefix (Body resp) utf8_BOM in
  let out := ExecuteResponder client (Some resp) in
  (StatusCode resp <> http_StatusOK -> exists err, out.2 = Some err) /\
  (out.2 = None <->
     StatusCode resp = http_StatusOK /\
     inspector_accepts client resp /\
     (only_spaces b = true \/ (json_Unmarshal b NameAvailabilityFields_zero).2 = None)) /\
  (out.2 = None ->
     NameAvailability_Fields out.1 =
       if only_spaces b then NameAvailabilityFields_zero
       else (json_Unmarshal b NameAvailabilityFields_zero).1).
Proof.
  intros b out. subst out. rewrite ExecuteResponder_cases. fold b.
  unfold inspector_accepts.
  destruct (ResponseInspector client) as [inspect|].
  - destruct (inspect resp) as [err|] eqn:Hins.
    + cbn [fst snd]. split; [eexists; reflexivity|].
      split; [split; [intros Hnone; discriminate Hnone
                     |intros (_ & Hi & _); discriminate Hi]
             |intros Hnone; discriminate Hnone].
    + apply responder_after_inspection. reflexivity.
  - apply responder_after_inspection. exact I.
Qed.
End ClientProperties.

(** *** The client on the examples *)

Lemma ExecutePreparer_builds_post_request_witness :
  prepared_request (H := example_SdkExternals)
    (ExecutePreparer (H := example_SdkExternals) example_client
       {| Request_Name := Some "db1"; Request_Type := None |}) =
  Some {| Method := "POST";
          URL := Some
            {| url_Base := "https://management.azure.com";
               url_Path :=
                 "/subscriptions/sub1/providers/Microsoft.DBforMySQL/checkNameAvailability";
               url_Query := {[ "api-version" := ["2017-04-30-preview"] ]} |};
          Header := {[ "Content-Type" := "application/json; charset=utf-8" ]};
          Request_Body := Some ("{" ++ json_member "name" "db1" ++ "}");
          ContentLength := 14 |}.
Proof.
  rewrite (ExecutePreparer_builds_post_request (H := example_SdkExternals) example_client
             {| Request_Name := Some "db1"; Request_Type := None |}
             ("{" ++ json_member "name" "db1" ++ "}")).
  - reflexivity.
  - reflexivity.
Defined.

Lemma Execute_rejects_nil_name_witness :
  Execute (H := example_SdkExternals) example_client
    {| Request_Name := None; Request_Type := Some "Microsoft.DBforMySQL" |} =
  Ret (NameAvailability_zero (H := example_SdkExternals),
       Some (errors_New
         "mysql.CheckNameAvailabilityClient#Execute: Invalid input: nameAvailabilityRequest.Name: value can not be null; required parameter")).
Proof.
  apply (Execute_rejects_nil_name (H := example_SdkExternals) example_client
           {| Request_Name := None; Request_Type := Some "Microsoft.DBforMySQL" |}).
  reflexivity.
Defined.

(** C8, as stated, fails: a 200 OK response whose body is not JSON is
    answered with an error. *)
Lemma ExecuteResponder_rejects_bad_body_with_200 :
  StatusCode {| StatusCode := 200; Body := "<html>"; BodyClosed := false |} = http_StatusOK /\
  (ExecuteResponder (H := example_SdkExternals) example_client
     (Some {| StatusCode := 200; Body := "<html>"; BodyClosed := false |})).2 =
    Some (errors_New
      "Error occurred unmarshalling JSON - Error = 'invalid character looking for beginning of value' JSON = '<html>'") /\
  ~ status_decides_success (H := example_SdkExternals) example_client
      {| StatusCode := 200; Body := "<html>"; BodyClosed := false |}.
Proof.
  split; [reflexivity|]. split; [vm_compute; reflexivity|].
  intros [_ Hsuccess]. specialize (Hsuccess eq_refl). vm_compute in Hsuccess.
  discriminate Hsuccess.
Qed.


(** * Further properties of the code *)

(** ** Quota: what [expand] reads and what [flatten] writes *)

Lemma to_int32_range (v : Z) : in_int32 (to_int32 v).
Proof.
  unfold in_int32, int32_min, int32_max, to_int32.
  pose proof (Z.mod_pos_bound (v + 2 ^ 31) (2 ^ 32)). lia.
Qed.

Lemma expand_block_shape (d : ResourceData) (x : gmap string value) (rest : list value) :
  d_Get d "quota" = VList (VMap x :: rest) ->
  expandAzureArmSchedulerJobCollectionQuota d =
    Val (Some {| MaxJobCount := int32_field x "max_job_count";
                 MaxRecurrence := Some
                   {| Frequency := string_field x "max_recurrence_frequency";
                      Interval := int32_field x "max_retry_interval" |} |}).
Proof.
  intros Hq. unfold expandAzureArmSchedulerJobCollectionQuota, int32_field, string_field.
  rewrite Hq. cbn [assertMap res_bind].
  destruct (x !! "max_job_count") as [[]|];
    destruct (x !! "max_recurrence_frequency") as [[]|];
    destruct (x !! "max_retry_interval") as [[]|]; reflexivity.
Qed.

Lemma int32_field_range (x : gmap string value) (key : string) (n : Z) :
  int32_field x key = Some n -> in_int32 n.
Proof.
  unfold int32_field. destruct (x !! key) as [[]|]; intros Hn; try discriminate Hn.
  injection Hn as <-. apply to_int32_range.
Qed.

(** X1: [expand] panics exactly when the quota list is not empty and its
    first element is not a block (a [map[string]interface{}]); in every
    other case it returns. *)
Theorem expand_panics_only_on_non_map_block (d : ResourceData) :
  expandAzureArmSchedulerJobCollectionQuota d = Panic <->
  exists v rest, d_Get d "quota" = VList (v :: rest) /\ forall m, v <> VMap m.
Proof.
  split.
  - intros Hp. destruct (d_Get d "quota") as [| | | | |l|] eqn:Hq;
      try (unfold expandAzureArmSchedulerJobCollectionQuota in Hp; rewrite Hq in Hp;
           discriminate Hp).
    destruct l as [|v rest];
      [unfold expandAzureArmSchedulerJobCollectionQuota in Hp; rewrite Hq in Hp;
       discriminate Hp|].
    exists v, rest. split; [reflexivity|]. intros m ->.
    rewrite (expand_block_shape d m rest Hq) in Hp. discriminate Hp.
  - intros (v & rest & Hq & Hv). unfold expandAzureArmSchedulerJobCollectionQuota.
    rewrite Hq. destruct v; try reflexivity. exfalso. eapply Hv. reflexivity.
Qed.

(** X2: every quota that [expand] returns has a recurrence, and its job
    count and retry interval lie in the int32 range, whatever integers the
    configuration held. *)
Theorem expand_result_within_int32 (d : ResourceData) (quota : JobCollectionQuota) :
  expandAzureArmSchedulerJobCollectionQuota d = Val (Some quota) ->
  (forall n, MaxJobCount quota = Some n -> in_int32 n) /\
  (exists recurrence, MaxRecurrence quota = Some recurrence /\
     forall n, Interval recurrence = Some n -> in_int32 n).
Proof.
  intros He. destruct (d_Get d "quota") as [| | | | |l|] eqn:Hq;
    try (unfold expandAzureArmSchedulerJobCollectionQuota in He; rewrite Hq in He;
         discriminate He).
  destruct l as [|v rest];
    [unfold expandAzureArmSchedulerJobCollectionQuota in He; rewrite Hq in He;
     discriminate He|].
  destruct v as [| | | | | |x];
    try (unfold expandAzureArmSchedulerJobCollectionQuota in He; rewrite Hq in He;
         discriminate He).
  rewrite (expand_block_shape d x rest Hq) in He. injection He as <-.
  cbn [MaxJobCount MaxRecurrence]. split.
  - intros n. apply int32_field_range.
  - eexists. split; [reflexivity|]. cbn [Interval]. intros n. apply int32_field_range.
Qed.

Lemma expand_result_within_int32_witness :
  (forall n, MaxJobCount
               {| MaxJobCount := Some (-2147483648);
                  MaxRecurrence := Some {| Frequency := "Hour"; Interval := Some 10 |} |}
             = Some n -> in_int32 n) /\
  (exists recurrence,
     MaxRecurrence
       {| MaxJobCount := Some (-2147483648);
          MaxRecurrence := Some {| Frequency := "Hour"; Interval := Some 10 |} |}
     = Some recurrence /\
     forall n, Interval recurrence = Some n -> in_int32 n).
Proof.
  apply (expand_result_within_int32 (example_config (example_quota 2147483648))).
  vm_compute. reflexivity.
Defined.

(** X3: [expand] reads the first block of the quota list only, and of that
    block the three known keys only: further blocks, further keys and the
    rest of the configuration make no difference. *)
Theorem expand_reads_first_block_only (d d' : ResourceData)
    (x x' : gmap string value) (rest rest' : list value) :
  d_Get d "quota" = VList (VMap x :: rest) ->
  d_Get d' "quota" = VList (VMap x' :: rest') ->
  agree_on_known_fields x x' ->
  expandAzureArmSchedulerJobCollectionQuota d = expandAzureArmSchedulerJobCollectionQuota d'.
Proof.
  intros Hq Hq' Hagree.
  rewrite (expand_block_shape d x rest Hq), (expand_block_shape d' x' rest' Hq').
  unfold int32_field, string_field.
  rewrite !Hagree by (unfold known_keys; set_solver). reflexivity.
Qed.

Lemma expand_reads_first_block_only_witness :
  expandAzureArmSchedulerJobCollectionQuota (example_config (example_quota 5)) =
  expandAzureArmSchedulerJobCollectionQuota
    {| rd_id := "other";
       rd_fields :=
         {[ "quota" := VList [VMap (<["max_job_occurrence" := VInt 7]> (example_quota 5));
                              VString "ignored"] ]} |}.
Proof.
  apply (expand_reads_first_block_only _ _ (example_quota 5)
           (<["max_job_occurrence" := VInt 7]> (example_quota 5)) [] [VString "ignored"]).
  - reflexivity.
  - reflexivity.
  - intros key Hkey. unfold known_keys in Hkey. set_unfold in Hkey.
    destruct Hkey as [->|[->|[->|[]]]]; reflexivity.
Defined.

Lemma flatten_lookup (quota : JobCollectionQuota) :
  exists y : gmap string value,
    flattenAzureArmSchedulerJobCollectionQuota (Some quota) = [VMap y] /\
    y !! "max_job_count" = VInt32 <$> MaxJobCount quota /\
    y !! "max_retry_interval" = VInt32 <$> (MaxRecurrence quota ≫= Interval) /\
    y !! "max_recurrence_frequency" = (fun r => VString (Frequency r)) <$> MaxRecurrence quota /\
    (forall key, key ∉ known_keys -> y !! key = None).
Proof.
  destruct quota as [count [[freq [retry|]]|]]; destruct count as [count|];
    (eexists; split; [reflexivity|]);
    cbn [MaxJobCount MaxRecurrence Interval Frequency fmap option_fmap option_map
         mbind option_bind];
    (split; [simplify_map_eq; reflexivity|]);
    (split; [simplify_map_eq; reflexivity|]);
    (split; [simplify_map_eq; reflexivity|]);
    intros key Hkey; unfold known_keys in Hkey; set_unfold in Hkey;
    rewrite ?lookup_insert_ne by (intros <-; apply Hkey; auto);
    apply lookup_empty.
Qed.

(** X4: the block that [flatten] builds for a quota holds [max_job_count]
    exactly when the job count is set, [max_retry_interval] exactly when the
    recurrence and its interval are set, [max_recurrence_frequency] whenever
    the recurrence is set (the empty frequency included), each with the
    quota's value, and no other key. *)
Theorem flatten_writes_set_fields_only (quota : JobCollectionQuota) :
  exists y : gmap string value,
    flattenAzureArmSchedulerJobCollectionQuota (Some quota) = [VMap y] /\
    y !! "max_job_count" = VInt32 <$> MaxJobCount quota /\
    y !! "max_retry_interval" = VInt32 <$> (MaxRecurrence quota ≫= Interval) /\
    y !! "max_recurrence_frequency" = (fun r => VString (Frequency r)) <$> MaxRecurrence quota /\
    (forall key, key ∉ known_keys -> y !! key = None).
Proof. exact (flatten_lookup quota). Qed.

(** X5: flattening what [expand] made of a block [x] always yields the
    frequency key, with the empty string when [x] has no string there, while
    [max_job_count] and [max_retry_interval] come back exactly when [x]
    holds an int under them. *)
Theorem flatten_expand_keeps_absence (d : ResourceData) (x : gmap string value)
    (rest : list value) :
  d_Get d "quota" = VList (VMap x :: rest) ->
  exists quota y,
    expandAzureArmSchedulerJobCollectionQuota d = Val (Some quota) /\
    flattenAzureArmSchedulerJobCollectionQuota (Some quota) = [VMap y] /\
    y !! "max_recurrence_frequency" = Some (VString (string_field x "max_recurrence_frequency")) /\
    (y !! "max_job_count" = None <-> forall v, x !! "max_job_count" <> Some (VInt v)) /\
    (y !! "max_retry_interval" = None <-> forall v, x !! "max_retry_interval" <> Some (VInt v)).
Proof.
  intros Hq. eexists. 
  destruct (flatten_lookup
    {| MaxJobCount := int32_field x "max_job_count";
       MaxRecurrence := Some
         {| Frequency := string_field x "max_recurrence_frequency";
            Interval := int32_field x "max_retry_interval" |} |})
    as (y & Hf & Hc & Hr & Hfr & _).
  exists y. split; [exact (expand_block_shape d x rest Hq)|]. split; [exact Hf|].
  cbn in Hc, Hr, Hfr. split; [exact Hfr|].
  rewrite Hc, Hr. unfold int32_field.
  split.
  - destruct (x !! "max_job_count") as [[]|]; cbn;
      (split; [intros Hn; first [discriminate Hn | intros v Hv; discriminate Hv]
              |intros Hn; first [reflexivity | exfalso; eapply Hn; reflexivity]]).
  - destruct (x !! "max_retry_interval") as [[]|]; cbn;
      (split; [intros Hn; first [discriminate Hn | intros v Hv; discriminate Hv]
              |intros Hn; first [reflexivity | exfalso; eapply Hn; reflexivity]]).
Qed.

Lemma flatten_expand_keeps_absence_witness :
  exists quota y,
    expandAzureArmSchedulerJobCollectionQuota
      {| rd_id := ""; rd_fields := {[ "quota" := VList [VMap {[ "max_job_count" := VInt 3 ]}] ]} |}
      = Val (Some quota) /\
    flattenAzureArmSchedulerJobCollectionQuota (Some quota) = [VMap y] /\
    y !! "max_recurrence_frequency" =
      Some (VString (string_field {[ "max_job_count" := VInt 3 ]} "max_recurrence_frequency")) /\
    (y !! "max_job_count" = None <->
       forall v, ({[ "max_job_count" := VInt 3 ]} : gmap string value) !! "max_job_count"
                 <> Some (VInt v)) /\
    (y !! "max_retry_interval" = None <->
       forall v, ({[ "max_job_count" := VInt 3 ]} : gmap string value) !! "max_retry_interval"
                 <> Some (VInt v)).
Proof.
  apply (flatten_expand_keeps_absence _ {[ "max_job_count" := VInt 3 ]} []).
  reflexivity.
Defined.

(** ** The resource operations: edges and invariants *)

Section ResourceFurther.
Context `{Externals}.
Context (flattenAndSetTags : gmap string (option string) -> St (option error)).
Context (parseAzureResourceID : string -> error + ResourceID).

Local Abbreviation CreateUpdate :=
  (resourceArmSchedulerJobCollectionCreateUpdate flattenAndSetTags).
Local Abbreviation Read :=
  (resourceArmSchedulerJobCollectionRead flattenAndSetTags parseAzureResourceID).
Local Abbreviation Delete :=
  (resourceArmSchedulerJobCollectionDelete parseAzureResourceID).
Local Abbreviation Populate :=
  (resourceArmSchedulerJobCollectionPopulate flattenAndSetTags).

(** X6: a delete never writes to the [ResourceData]: whatever Azure
    answers, the ID and the fields are those it was called with. *)
Theorem delete_never_changes_resource_data {W} (h : handler scheduler W) (w : W)
    (d : ResourceData) :
  (result (run h w (Delete d))).1 = d.
Proof.
  unfold resourceArmSchedulerJobCollectionDelete.
  destruct (parseAzureResourceID (d_Id d)) as [e|id]; [reflexivity|].
  cbn [run]. destruct (h _ w) as [[future err] w1].
  destruct err as [e|]; [destruct (response_WasNotFound (Future_Response future))|];
    cbn [negb run result fst]; try reflexivity;
    destruct (h _ w1) as [[future' err'] w2];
    (destruct err' as [e'|];
       [destruct (response_WasNotFound (Future_Response future'))|]);
    reflexivity.
Qed.

(** X7: a read either keeps the resource ID or clears it; it clears it only
    together with a nil error and with the fields untouched. *)
Theorem read_keeps_or_clears_id {W} (h : handler scheduler W) (w : W) (d : ResourceData) :
  (forall tags, keeps_id (flattenAndSetTags tags)) ->
  let r := result (run h w (Read d)) in
  d_Id r.1 = d_Id d \/
  (d_Id r.1 = "" /\ r.2 = Val None /\ rd_fields r.1 = rd_fields d).
Proof.
  intros Htags r. subst r. unfold resourceArmSchedulerJobCollectionRead.
  destruct (parseAzureResourceID (d_Id d)) as [e|id]; [left; reflexivity|].
  cbn [run]. destruct (h _ w) as [[collection err] w1].
  destruct err as [e|].
  - destruct (utils_ResponseWasNotFound (Collection_Response collection)).
    + right. repeat split.
    + left. reflexivity.
  - left. cbn [run result]. unfold d_Id. apply keeps_id_Populate. exact Htags.
Qed.

(** X8: when the resource ID does not parse, read and delete return the
    parser's error as it is, place no call and leave the [ResourceData]
    alone. *)
Theorem unparsable_id_returns_parse_error {W} (h : handler scheduler W) (w : W)
    (d : ResourceData) (err : error) :
  parseAzureResourceID (d_Id d) = inl err ->
  run h w (Read d) = {| result := (d, Val (Some err)); world := w; calls := [] |} /\
  run h w (Delete d) = {| result := (d, Val (Some err)); world := w; calls := [] |}.
Proof.
  intros Hid. unfold resourceArmSchedulerJobCollectionRead,
    resourceArmSchedulerJobCollectionDelete. rewrite Hid. split; reflexivity.
Qed.

(** X9: when [CreateOrUpdate] and the follow-up [Get] both succeed but the
    collection read has a nil ID, create/update panics at the dereference:
    no ID is set and nothing is populated. *)
Theorem create_update_panics_on_nil_id {W} (h : handler scheduler W) (w w1 w2 : W)
    (d : ResourceData) (name resourceGroup : string)
    (collection created read : JobCollectionDefinition) :
  createUpdate_collection d = Val (name, resourceGroup, collection) ->
  h (client_CreateOrUpdate resourceGroup name collection) w = ((created, None), w1) ->
  h (client_Get resourceGroup name) w1 = ((read, None), w2) ->
  ID read = None ->
  result (run h w (CreateUpdate d)) = (d, Panic).
Proof.
  intros Hprep Hcreate Hget Hid. unfold resourceArmSchedulerJobCollectionCreateUpdate.
  rewrite Hprep. cbn [run]. rewrite Hcreate. cbn [run]. rewrite Hget, Hid. reflexivity.
Qed.

(** X10: when the configuration does not hold a string under [name],
    [location], [resource_group_name] or [sku], or does not hold a map under
    [tags], create/update panics on the type assertion before it places any
    call. *)
Theorem create_update_bad_config_places_no_call {W} (h : handler scheduler W) (w : W)
    (d : ResourceData) :
  assertString (d_Get d "name") = Panic \/
  assertString (d_Get d "location") = Panic \/
  assertString (d_Get d "resource_group_name") = Panic \/
  assertMap (d_Get d "tags") = Panic \/
  assertString (d_Get d "sku") = Panic ->
  run h w (CreateUpdate d) = {| result := (d, Panic); world := w; calls := [] |}.
Proof.
  intros Hbad.
  assert (Hprep : createUpdate_collection d = Panic).
  { unfold createUpdate_collection.
    destruct (assertString (d_Get d "name")) as [name|]; [|reflexivity].
    destruct (assertString (d_Get d "location")) as [location|]; [|reflexivity].
    destruct (assertString (d_Get d "resource_group_name")) as [rg|]; [|reflexivity].
    destruct (assertMap (d_Get d "tags")) as [tags|]; [|reflexivity].
    destruct (assertString (d_Get d "sku")) as [sku|]; [|reflexivity].
    destruct Hbad as [Hb|[Hb|[Hb|[Hb|Hb]]]]; discriminate Hb. }
  unfold resourceArmSchedulerJobCollectionCreateUpdate. rewrite Hprep. reflexivity.
Qed.

(** X11: populating from a response without location panics at the
    dereference of [resp.Location]: by then only [name] may have been
    written, and no other field is. *)
Theorem populate_nil_location_panics (resourceGroup : string)
    (resp : JobCollectionDefinition) (d : ResourceData) :
  Location resp = None ->
  (Populate resourceGroup resp d).2 = Panic /\
  (forall key, key <> "name" ->
     rd_fields (Populate resourceGroup resp d).1 !! key = rd_fields d !! key).
Proof.
  intros Hloc. unfold resourceArmSchedulerJobCollectionPopulate, st_bind, d_Set, deref.
  rewrite Hloc. destruct (schema_SetError "name" _); cbn [fst snd rd_fields].
  - split; [reflexivity|]. intros key _. reflexivity.
  - split; [reflexivity|]. intros key Hkey. apply lookup_insert_ne. congruence.
Qed.

(** X12: errors of the writes of [name], [location],
    [resource_group_name], [sku] and [state] are dropped: when the response
    has a location, Terraform takes the quota and the tags are set without
    error, populate returns nil whatever the other writes answered. *)
Theorem populate_ignores_refused_writes (resourceGroup location : string)
    (resp : JobCollectionDefinition) (d : ResourceData) :
  Location resp = Some location ->
  (forall v, schema_SetError "quota" v = None) ->
  (forall tags d', (flattenAndSetTags tags d').2 = Val None) ->
  (Populate resourceGroup resp d).2 = Val None.
Proof.
  intros Hloc Hquota Htags.
  unfold resourceArmSchedulerJobCollectionPopulate, st_bind, d_Set, deref, st_ret.
  rewrite Hloc.
  destruct (schema_SetError "name" _);
    destruct (schema_SetError "location" _);
    destruct (schema_SetError "resource_group_name" _);
    (destruct (Properties resp) as [properties|];
      [destruct (Properties_Sku properties) as [sku|];
        [destruct (schema_SetError "sku" _)|];
        destruct (schema_SetError "state" _); rewrite Hquota|]);
    match goal with
    | |- context [flattenAndSetTags ?t ?s] =>
        specialize (Htags t s); destruct (flattenAndSetTags t s) as [d' [[err'|]|]];
        cbn in Htags |- *; first [reflexivity | discriminate Htags]
    end.
Qed.
Lemma append_assoc_r (a b c : string) : (a ++ b) ++ c = a ++ (b ++ c).
Proof.
  induction a as [|ch a IH]; [reflexivity|].
  change (String ch ((a ++ b) ++ c) = String ch (a ++ (b ++ c))). rewrite IH. reflexivity.
Qed.

(** X13: when Terraform refuses the quota, populate returns that error
    wrapped, and the tags are not set any more: the result does not depend on
    [flattenAndSetTags]. The message names the resource group; in place of
    the job collection's name it shows what [%q] prints for a [*string]
    operand, a bad-verb notice with the pointer. *)
Theorem populate_reports_refused_quota (resourceGroup location : string)
    (resp : JobCollectionDefinition) (properties : JobCollectionProperties)
    (err : error) (d : ResourceData)
    (other : gmap string (option string) -> St (option error)) :
  Location resp = Some location ->
  Properties resp = Some properties ->
  schema_SetError "quota"
    (VList (flattenAzureArmSchedulerJobCollectionQuota (Quota properties))) = Some err ->
  (Populate resourceGroup resp d).2 =
    Val (Some (errors_New
      ("Error flattening quota for Job Collection %!q(*string=" ++
       fmt_Pointer (Name resp) ++ ") (Resource Group " ++
       strconv_Quote resourceGroup ++ "): " ++ Error err))) /\
  Populate resourceGroup resp d =
    resourceArmSchedulerJobCollectionPopulate other resourceGroup resp d.
Proof.
  intros Hloc Hprops Hquota.
  unfold resourceArmSchedulerJobCollectionPopulate, st_bind, d_Set, deref, st_ret.
  rewrite Hloc, Hprops, Hquota.
  destruct (schema_SetError "name" _);
    destruct (schema_SetError "location" _);
    destruct (schema_SetError "resource_group_name" _);
    (destruct (Properties_Sku properties) as [sku|];
      [destruct (schema_SetError "sku" _)|]);
    destruct (schema_SetError "state" _);
    unfold fmt_Errorf; cbn [fst snd fmt_Sprintf fmt_q fmt_plus_v];
    rewrite append_empty_r, !append_assoc_r; split; reflexivity.
Qed.

(** X14: when Terraform takes every write and setting the tags touches no
    other field, populating from a response with location and properties
    leaves in the [ResourceData] the response's name, its normalized
    location, the resource group, the state, the flattened quota and, when
    the response has one, the SKU name (else the SKU field is left as it
    was). *)
Theorem populate_writes_response_fields (resourceGroup location : string)
    (resp : JobCollectionDefinition) (properties : JobCollectionProperties)
    (d : ResourceData) :
  (forall key v, schema_SetError key v = None) ->
  (forall tags d' key, key <> "tags" ->
     rd_fields (flattenAndSetTags tags d').1 !! key = rd_fields d' !! key) ->
  Location resp = Some location ->
  Properties resp = Some properties ->
  let fields := rd_fields (Populate resourceGroup resp d).1 in
  fields !! "name" = Some (VStringPtr (Name resp)) /\
  fields !! "location" = Some (VString (azureRMNormalizeLocation location)) /\
  fields !! "resource_group_name" = Some (VString resourceGroup) /\
  fields !! "state" = Some (VString (State properties)) /\
  fields !! "quota" =
    Some (VList (flattenAzureArmSchedulerJobCollectionQuota (Quota properties))) /\
  fields !! "sku" =
    match Properties_Sku properties with
    | Some sku => Some (VString (Sku_Name sku))
    | None => rd_fields d !! "sku"
    end.
Proof.
  intros Hall Htags Hloc Hprops fields. subst fields.
  unfold resourceArmSchedulerJobCollectionPopulate, st_bind, d_Set, deref, st_ret.
  rewrite Hloc, Hprops. rewrite !Hall.
  destruct (Properties_Sku properties) as [sku|]; rewrite ?Hall;
    match goal with
    | |- context [flattenAndSetTags ?t ?s] =>
        pose proof (Htags t s) as Hkeep;
        destruct (flattenAndSetTags t s) as [d' [[err'|]|]]
    end;
    cbn [fst snd rd_fields] in Hkeep |- *;
    rewrite !Hkeep by discriminate;
    repeat split; simplify_map_eq; reflexivity.
Qed.
End ResourceFurther.

Lemma read_keeps_or_clears_id_witness :
  let r := result (run azure_store ∅
             (resourceArmSchedulerJobCollectionRead (H := example_Externals)
                example_flattenAndSetTags example_parseAzureResourceID example_state)) in
  d_Id r.1 = d_Id example_state \/
  (d_Id r.1 = "" /\ r.2 = Val None /\ rd_fields r.1 = rd_fields example_state).
Proof.
  apply (read_keeps_or_clears_id (H := example_Externals) example_flattenAndSetTags
           example_parseAzureResourceID azure_store ∅ example_state).
  intros tags. apply keeps_id_d_Set.
Defined.

Lemma unparsable_id_returns_parse_error_witness :
  run azure_store ∅
    (resourceArmSchedulerJobCollectionRead (H := example_Externals)
       example_flattenAndSetTags example_parseAzureResourceID
       {| rd_id := "/subscriptions/sub1/jobs"; rd_fields := ∅ |}) =
    {| result := ({| rd_id := "/subscriptions/sub1/jobs"; rd_fields := ∅ |},
                  Val (Some (errors_New
                    "The number of path segments is not divisible by 2 in /subscriptions/sub1/jobs")));
       world := ∅; calls := [] |} /\
  run azure_store ∅
    (resourceArmSchedulerJobCollectionDelete (H := example_Externals)
       example_parseAzureResourceID
       {| rd_id := "/subscriptions/sub1/jobs"; rd_fields := ∅ |}) =
    {| result := ({| rd_id := "/subscriptions/sub1/jobs"; rd_fields := ∅ |},
                  Val (Some (errors_New
                    "The number of path segments is not divisible by 2 in /subscriptions/sub1/jobs")));
       world := ∅; calls := [] |}.
Proof.
  apply (unparsable_id_returns_parse_error (H := example_Externals)
           example_flattenAndSetTags example_parseAzureResourceID azure_store ∅
           {| rd_id := "/subscriptions/sub1/jobs"; rd_fields := ∅ |}).
  vm_compute. reflexivity.
Defined.

Lemma create_update_panics_on_nil_id_witness :
  result (run azure_blank tt
    (resourceArmSchedulerJobCollectionCreateUpdate (H := example_Externals)
       example_flattenAndSetTags (example_config (example_quota 5))))
  = (example_config (example_quota 5), Panic).
Proof.
  eapply (create_update_panics_on_nil_id (H := example_Externals)
            example_flattenAndSetTags azure_blank tt tt tt); reflexivity.
Defined.

Lemma create_update_bad_config_places_no_call_witness :
  run azure_store ∅
    (resourceArmSchedulerJobCollectionCreateUpdate (H := example_Externals)
       example_flattenAndSetTags {| rd_id := ""; rd_fields := {[ "name" := VInt 3 ]} |}) =
  {| result := ({| rd_id := ""; rd_fields := {[ "name" := VInt 3 ]} |}, Panic);
     world := ∅; calls := [] |}.
Proof.
  apply (create_update_bad_config_places_no_call (H := example_Externals)
           example_flattenAndSetTags azure_store ∅).
  left. reflexivity.
Defined.

Lemma populate_nil_location_panics_witness :
  (resourceArmSchedulerJobCollectionPopulate (H := example_Externals)
     example_flattenAndSetTags "rg1" (example_collection None) example_state).2 = Panic /\
  (forall key, key <> "name" ->
     rd_fields (resourceArmSchedulerJobCollectionPopulate (H := example_Externals)
                  example_flattenAndSetTags "rg1" (example_collection None) example_state).1
       !! key = rd_fields example_state !! key).
Proof.
  apply (populate_nil_location_panics (H := example_Externals) example_flattenAndSetTags).
  reflexivity.
Defined.

Lemma populate_ignores_refused_writes_witness :
  schema_SetError (Externals := picky_Externals) "name" (VStringPtr (Some "jobs"))
    = Some (errors_New "name: refused") /\
  schema_SetError (Externals := picky_Externals) "state" (VString "Enabled")
    = Some (errors_New "state: refused") /\
  (resourceArmSchedulerJobCollectionPopulate (H := picky_Externals)
     (fun _ => st_ret None) "rg1" (example_collection (Some "West Europe"))
     example_state).2 = Val None.
Proof.
  split; [reflexivity|]. split; [reflexivity|].
  apply (populate_ignores_refused_writes (H := picky_Externals)
           (fun _ => st_ret None) "rg1" "West Europe").
  - reflexivity.
  - intros v. reflexivity.
  - intros tags d'. reflexivity.
Defined.

Lemma populate_reports_refused_quota_witness :
  (resourceArmSchedulerJobCollectionPopulate (H := refusing_Externals)
     example_flattenAndSetTags "rg1" (example_collection (Some "West Europe"))
     example_state).2 =
    Val (Some (errors_New
      ("Error flattening quota for Job Collection %!q(*string=0xc000010000) (Resource Group "
       ++ double_quote ++ "rg1" ++ double_quote ++ "): quota: should be a list"))) /\
  resourceArmSchedulerJobCollectionPopulate (H := refusing_Externals)
    example_flattenAndSetTags "rg1" (example_collection (Some "West Europe")) example_state =
  resourceArmSchedulerJobCollectionPopulate (H := refusing_Externals)
    (fun _ => st_ret (Some (errors_New "tags"))) "rg1"
    (example_collection (Some "West Europe")) example_state.
Proof.
  destruct (populate_reports_refused_quota (H := refusing_Externals)
              example_flattenAndSetTags "rg1" "West Europe"
              (example_collection (Some "West Europe")) example_properties
              (errors_New "quota: should be a list") example_state
              (fun _ => st_ret (Some (errors_New "tags")))
              eq_refl eq_refl eq_refl) as [Herr Hsame].
  split; [|exact Hsame]. etransitivity; [exact Herr|]. vm_compute. reflexivity.
Defined.

Lemma populate_writes_response_fields_witness :
  let fields :=
    rd_fields (resourceArmSchedulerJobCollectionPopulate (H := example_Externals)
                 example_flattenAndSetTags "rg1" (example_collection (Some "West Europe"))
                 example_state).1 in
  fields !! "name" = Some (VStringPtr (Name (example_collection (Some "West Europe")))) /\
  fields !! "location" =
    Some (VString (azureRMNormalizeLocation (Externals := example_Externals) "West Europe")) /\
  fields !! "resource_group_name" = Some (VString "rg1") /\
  fields !! "state" = Some (VString (State example_properties)) /\
  fields !! "quota" =
    Some (VList (flattenAzureArmSchedulerJobCollectionQuota (Quota example_properties))) /\
  fields !! "sku" =
    match Properties_Sku example_properties with
    | Some sku => Some (VString (Sku_Name sku))
    | None => rd_fields example_state !! "sku"
    end.
Proof.
  apply (populate_writes_response_fields (H := example_Externals)
           example_flattenAndSetTags "rg1" "West Europe"
           (example_collection (Some "West Europe")) example_properties example_state).
  - intros key v. reflexivity.
  - intros tags d' key Hkey. unfold example_flattenAndSetTags, d_Set.
    cbn [schema_SetError example_Externals fst rd_fields].
    apply lookup_insert_ne. congruence.
  - reflexivity.
  - reflexivity.
Defined.

(** ** The MySQL client: the paths through [Execute] *)

Section ClientFurther.
Context `{SdkExternals}.

Lemma ExecutePreparer_error (client : CheckNameAvailabilityClient)
    (request : NameAvailabilityRequest) :
  (ExecutePreparer client request).2 =
    match json_Marshal request with
    | inl err => Some err
    | inr _ => None
    end.
Proof.
  unfold ExecutePreparer, autorest_CreatePreparer. cbn [fold_left].
  unfold autorest_WithQueryParameters, autorest_WithJSON, autorest_WithPathParameters,
    autorest_WithBaseURL, autorest_AsPost, autorest_AsJSON, prepare_then.
  cbn [URL Method Header Request_Body ContentLength http_Request_zero].
  destruct (json_Marshal request) as [err|body]; reflexivity.
Qed.

(** X17: when the name is set and the request can be encoded, [Execute]
    places exactly one call on the sender, with the request that
    [ExecutePreparer] built, whatever the sender answers. *)
Theorem Execute_sends_prepared_request_once {W} (h : handler sender W) (w : W)
    (client : CheckNameAvailabilityClient) (request : NameAvailabilityRequest)
    (name body : string) :
  Request_Name request = Some name ->
  json_Marshal request = inr body ->
  calls (run h w (Execute client request)) = [(ExecutePreparer client request).1].
Proof.
  intros Hname Hbody. unfold Execute. rewrite validate_Name_constraint, Hname.
  pose proof (ExecutePreparer_error client request) as Hp. rewrite Hbody in Hp.
  destruct (ExecutePreparer client request) as [req [e|]]; cbn [fst snd] in Hp |- *;
    [discriminate Hp|].
  cbn [ExecuteSender prog_bind run]. destruct (h req w) as [[resp err] w1].
  destruct err as [e|]; [reflexivity|].
  destruct (ExecuteResponder client resp) as [res [e|]]; reflexivity.
Qed.

(** X18: when the sender reports an error, [Execute] does not run the
    responder: it returns the empty result carrying the sender's response,
    and the sender's error wrapped as a failure to send the request. *)
Theorem Execute_reports_sender_failure {W} (h : handler sender W) (w w' : W)
    (client : CheckNameAvailabilityClient) (request : NameAvailabilityRequest)
    (name body : string) (resp : option http_Response) (err : error) :
  Request_Name request = Some name ->
  json_Marshal request = inr body ->
  h (ExecutePreparer client request).1 w = ((resp, Some err), w') ->
  result (run h w (Execute client request)) =
    ({| NameAvailability_Response := {| Response := resp |};
        NameAvailability_Fields := NameAvailabilityFields_zero |},
     Some (autorest_NewErrorWithError err "mysql.CheckNameAvailabilityClient" "Execute"
             resp "Failure sending request")).
Proof.
  intros Hname Hbody Hsend. unfold Execute. rewrite validate_Name_constraint, Hname.
  pose proof (ExecutePreparer_error client request) as Hp. rewrite Hbody in Hp.
  destruct (ExecutePreparer client request) as [req [e|]]; cbn [fst snd] in Hp, Hsend |- *;
    [discriminate Hp|].
  cbn [ExecuteSender prog_bind run]. rewrite Hsend. reflexivity.
Qed.

(** X19: when the sender hands back a 200 OK response that the client's
    inspector accepts and whose body unmarshals, [Execute] returns a nil
    error and the result holding the unmarshalled fields and the response,
    its body read and closed. *)
Theorem Execute_returns_unmarshalled_result {W} (h : handler sender W) (w w' : W)
    (client : CheckNameAvailabilityClient) (request : NameAvailabilityRequest)
    (name body : string) (resp : http_Response) (v : NameAvailabilityFields) :
  Request_Name request = Some name ->
  json_Marshal request = inr body ->
  h (ExecutePreparer client request).1 w = ((Some resp, None), w') ->
  StatusCode resp = http_StatusOK ->
  inspector_accepts client resp ->
  only_spaces (bytes_TrimPrefix (Body resp) utf8_BOM) = false ->
  json_Unmarshal (bytes_TrimPrefix (Body resp) utf8_BOM) NameAvailabilityFields_zero
    = (v, None) ->
  result (run h w (Execute client request)) =
    ({| NameAvailability_Response :=
          {| Response := Some {| StatusCode := StatusCode resp; Body := "";
                                 BodyClosed := true |} |};
        NameAvailability_Fields := v |}, None).
Proof.
  intros Hname Hbody Hsend Hst Hins Hsp Hjson.
  unfold Execute. rewrite validate_Name_constraint, Hname.
  pose proof (ExecutePreparer_error client request) as Hp. rewrite Hbody in Hp.
  destruct (ExecutePreparer client request) as [req [e|]]; cbn [fst snd] in Hp, Hsend |- *;
    [discriminate Hp|].
  cbn [ExecuteSender prog_bind run]. rewrite Hsend.
  rewrite ExecuteResponder_cases. unfold inspector_accepts in Hins.
  rewrite (bool_decide_eq_true_2 _ Hst), Hsp, Hjson.
  destruct (ResponseInspector client) as [inspect|]; [rewrite Hins|]; reflexivity.
Qed.

(** X20: when the sender hands back a response with a status other than
    200 OK that the client's inspector accepts, [Execute] returns the
    [azure.RequestError] of that response wrapped as a failure to respond;
    the result holds no fields, and the response in it is closed with its
    body unread. *)
Theorem Execute_wraps_wrong_status {W} (h : handler sender W) (w w' : W)
    (client : CheckNameAvailabilityClient) (request : NameAvailabilityRequest)
    (name body : string) (resp : http_Response) :
  Request_Name request = Some name ->
  json_Marshal request = inr body ->
  h (ExecutePreparer client request).1 w = ((Some resp, None), w') ->
  StatusCode resp <> http_StatusOK ->
  inspector_accepts client resp ->
  let closed := Some {| StatusCode := StatusCode resp; Body := Body resp;
                        BodyClosed := true |} in
  result (run h w (Execute client request)) =
    ({| NameAvailability_Response := {| Response := closed |};
        NameAvailability_Fields := NameAvailabilityFields_zero |},
     Some (autorest_NewErrorWithError (azure_RequestError resp)
             "mysql.CheckNameAvailabilityClient" "Execute" closed
             "Failure responding to request")).
Proof.
  intros Hname Hbody Hsend Hst Hins closed. subst closed.
  unfold Execute. rewrite validate_Name_constraint, Hname.
  pose proof (ExecutePreparer_error client request) as Hp. rewrite Hbody in Hp.
  destruct (ExecutePreparer client request) as [req [e|]]; cbn [fst snd] in Hp, Hsend |- *;
    [discriminate Hp|].
  cbn [ExecuteSender prog_bind run]. rewrite Hsend.
  rewrite ExecuteResponder_cases. unfold inspector_accepts in Hins.
  rewrite (bool_decide_eq_false_2 _ Hst).
  destruct (ResponseInspector client) as [inspect|]; [rewrite Hins|]; reflexivity.
Qed.

(** X21: whatever the response and whatever the outcome, [ExecuteResponder]
    hands back the response it was given with the same status code and with
    its body closed. *)
Theorem ExecuteResponder_always_closes_body (client : CheckNameAvailabilityClient)
    (resp : http_Response) :
  exists r,
    NameAvailability_Response (ExecuteResponder client (Some resp)).1
      = {| Response := Some r |} /\
    BodyClosed r = true /\ StatusCode r = StatusCode resp.
Proof.
  rewrite ExecuteResponder_cases.
  destruct (match ResponseInspector client with
            | Some inspect => inspect resp
            | None => None
            end) as [err|];
    [|case_bool_decide; [destruct (only_spaces _)|]];
    eexists; (split; [reflexivity|split; reflexivity]).
Qed.
End ClientFurther.

Lemma Execute_sends_prepared_request_once_witness :
  calls (run (sender_answering None (Some (errors_New "dial tcp: timeout"))) tt
           (Execute (H := example_SdkExternals) example_client example_request)) =
  [(ExecutePreparer (H := example_SdkExternals) example_client example_request).1].
Proof.
  apply (Execute_sends_prepared_request_once (H := example_SdkExternals)
           (sender_answering None (Some (errors_New "dial tcp: timeout"))) tt
           example_client example_request "db1"
           ("{" ++ json_member "name" "db1" ++ "}")); reflexivity.
Defined.

Lemma Execute_reports_sender_failure_witness :
  result (run (sender_answering None (Some (errors_New "dial tcp: timeout"))) tt
            (Execute (H := example_SdkExternals) example_client example_request)) =
  ({| NameAvailability_Response := {| Response := None |};
      NameAvailability_Fields := NameAvailabilityFields_zero (SdkExternals := example_SdkExternals) |},
   Some (autorest_NewErrorWithError (SdkExternals := example_SdkExternals)
           (errors_New "dial tcp: timeout") "mysql.CheckNameAvailabilityClient" "Execute"
           None "Failure sending request")).
Proof.
  apply (Execute_reports_sender_failure (H := example_SdkExternals)
           (sender_answering None (Some (errors_New "dial tcp: timeout"))) tt tt
           example_client example_request "db1"
           ("{" ++ json_member "name" "db1" ++ "}")); reflexivity.
Defined.

Lemma Execute_returns_unmarshalled_result_witness :
  result (run (sender_answering
                 (Some {| StatusCode := 200; Body := available_body; BodyClosed := false |})
                 None) tt
            (Execute (H := example_SdkExternals) example_client example_request)) =
  ({| NameAvailability_Response :=
        {| Response := Some {| StatusCode := 200; Body := ""; BodyClosed := true |} |};
      NameAvailability_Fields := ((None, Some true) : NameAvailabilityFields (SdkExternals := example_SdkExternals)) |},
   None).
Proof.
  apply (Execute_returns_unmarshalled_result (H := example_SdkExternals)
           (sender_answering
              (Some {| StatusCode := 200; Body := available_body; BodyClosed := false |})
              None) tt tt
           example_client example_request "db1"
           ("{" ++ json_member "name" "db1" ++ "}")
           {| StatusCode := 200; Body := available_body; BodyClosed := false |}).
  - reflexivity.
  - reflexivity.
  - reflexivity.
  - reflexivity.
  - exact I.
  - reflexivity.
  - reflexivity.
Defined.

Lemma Execute_wraps_wrong_status_witness :
  result (run (sender_answering (Some (response_with 409)) None) tt
            (Execute (H := example_SdkExternals) example_client example_request)) =
  ({| NameAvailability_Response :=
        {| Response := Some {| StatusCode := 409; Body := ""; BodyClosed := true |} |};
      NameAvailability_Fields := NameAvailabilityFields_zero (SdkExternals := example_SdkExternals) |},
   Some (autorest_NewErrorWithError (SdkExternals := example_SdkExternals)
           (azure_RequestError (SdkExternals := example_SdkExternals) (response_with 409))
           "mysql.CheckNameAvailabilityClient" "Execute"
           (Some {| StatusCode := 409; Body := ""; BodyClosed := true |})
           "Failure responding to request")).
Proof.
  apply (Execute_wraps_wrong_status (H := example_SdkExternals)
           (sender_answering (Some (response_with 409)) None) tt tt
           example_client example_request "db1"
           ("{" ++ json_member "name" "db1" ++ "}") (response_with 409)).
  - reflexivity.
  - reflexivity.
  - reflexivity.
  - discriminate.
  - exact I.
Defined.
